(** * The Gemini service client of Hyper-Cognitive-AI-Nexus

    A shallow embedding of [services/geminiService] (the second document of
    [src/unnamed/part_000]): [getAIClient], [generateText], [generateImage],
    [streamText] and [analyzeImage].

    The functions are [async]: they read the process environment, write to
    the console, call the hosted model through the SDK and, for the vision
    call, read a file through a [FileReader].  They are embedded as terms of
    a small free monad [js] whose operations are exactly these effects; a
    [platform] answers the operations, and [run] plays a term against a
    platform, returning the trace of what the function did together with the
    way its promise settled.  The async generator [streamText] is such a
    term too, with [yield] as one more operation; [next] and [pull_all]
    give the view of a consumer that pulls from it and never calls
    [return()] or [throw()] on it. *)

From Stdlib Require Import String Ascii List Bool Arith ZArith Lia.
From ExtLib Require Import Structures.Monad Structures.MonadExc.
Import ListNotations.
Import MonadNotation.
Local Open Scope string_scope.
Local Open Scope monad_scope.

Set Implicit Arguments.

(** ** JavaScript values used by the service *)

(** A thrown value.  The service only ever creates [new Error(message)];
    everything else it sees is raised by the SDK or by the file reader. *)
Record exn : Type := { err_name : string; message : string }.

Definition Error (msg : string) : exn := {| err_name := "Error"; message := msg |}.

(** The state in which a promise settles. *)
Inductive settled (A : Type) : Type :=
| Fulfilled (a : A)
| Rejected (e : exn).
Arguments Rejected {A} e.

(** [string | undefined]: [None] is [undefined]. *)
Definition truthy (v : option string) : bool :=
  match v with
  | Some s => negb (s =? "")
  | None => false
  end.

(** [v || d] at type [string | undefined]. *)
Definition js_or (v : option string) (d : string) : string :=
  match v with
  | Some s => if s =? "" then d else s
  | None => d
  end.

(** [hay.includes(needle)]. *)
Fixpoint includes (hay needle : string) : bool :=
  match hay with
  | EmptyString => prefix needle hay
  | String _ rest => prefix needle hay || includes rest needle
  end.

(** [s.split(sep)] for a separator of one character. *)
Fixpoint split (sep : ascii) (s : string) : list string :=
  match s with
  | EmptyString => [EmptyString]
  | String c rest =>
      if Ascii.eqb c sep then EmptyString :: split sep rest
      else match split sep rest with
           | piece :: pieces => String c piece :: pieces
           | [] => [String c EmptyString]
           end
  end.

(** ** Requests and responses of the SDK *)

(** The client object: [new GoogleGenAI({ apiKey })]. *)
Record GoogleGenAI : Type := { apiKey : string }.

(** A part of a request, as the service writes them: [{ text }] or
    [{ inlineData: { mimeType, data } }].  [data] is what [split(',')[1]]
    gave, hence possibly [undefined]. *)
Inductive request_part : Type :=
| TextPart (text : string)
| InlineDataPart (mimeType : string) (data : option string).

(** [contents]: the prompt itself, or [{ parts: [...] }]. *)
Inductive request_contents : Type :=
| PromptContents (prompt : string)
| PartsContents (parts : list request_part).

Record ThinkingConfig : Type := { thinkingBudget : Z }.
Record ImageConfig : Type := { aspectRatio : string }.

Record GenerateContentConfig : Type := {
  systemInstruction : option string;
  thinkingConfig : option ThinkingConfig;
  imageConfig : option ImageConfig
}.

Record request : Type := {
  model : string;
  contents : request_contents;
  config : option GenerateContentConfig
}.

(** The response, in the shape the spec records:
    [{ text }] and [{ candidates: [{ content: { parts: [{ inlineData:
    { mimeType, data } }] } }] }]; every level the service reads with [?.]
    may be missing. *)
Record Blob : Type := { blob_mimeType : string; blob_data : string }.
Record Part : Type := { inlineData : option Blob; part_text : option string }.
Record Content : Type := { parts : option (list Part) }.
Record Candidate : Type := { content : option Content }.
Record GenerateContentResponse : Type := {
  text : option string;
  candidates : option (list Candidate)
}.

(** The async iterable returned by [generateContentStream]: chunks arrive
    one by one until the transport ends the stream or fails. *)
Inductive response_stream : Type :=
| StreamEnd
| StreamFail (e : exn)
| StreamChunk (chunk : GenerateContentResponse) (rest : response_stream).

(** A browser [File]: its declared type and its bytes. *)
Record File : Type := { file_type : string; file_bytes : list Byte.byte }.

(** ** The effects of the service and the monad [js] *)

Inductive effect : Type -> Type :=
| EnvApiKey : effect (option string)
| ConsoleWarn (msg : string) : effect unit
| ConsoleError (label : string) (e : exn) : effect unit
| GenerateContent (ai : GoogleGenAI) (req : request)
    : effect (settled GenerateContentResponse)
| GenerateContentStream (ai : GoogleGenAI) (req : request)
    : effect (settled response_stream)
| ReadAsDataURL (f : File) : effect (settled string)
| YieldValue (v : string) : effect unit.

Inductive js (A : Type) : Type :=
| Return (a : A)
| Throw (e : exn)
| Perform (X : Type) (op : effect X) (k : X -> js A).
Arguments Throw {A} e.

Fixpoint js_bind {A B : Type} (m : js A) (f : A -> js B) : js B :=
  match m with
  | Return a => f a
  | Throw e => Throw e
  | Perform op k => Perform op (fun x => js_bind (k x) f)
  end.

(** [try { m } catch (error) { h error }]. *)
Fixpoint try_catch {A : Type} (m : js A) (h : exn -> js A) : js A :=
  match m with
  | Return a => Return a
  | Throw e => h e
  | Perform op k => Perform op (fun x => try_catch (k x) h)
  end.

#[export] Instance Monad_js : Monad js :=
  {| ret := @Return; bind := @js_bind |}.

#[export] Instance MonadExc_js : MonadExc exn js :=
  {| raise := @Throw; catch := @try_catch |}.

Definition perform {X : Type} (op : effect X) : js X := Perform op (@Return X).

(** [await p]: the value of a fulfilled promise, a throw for a rejected one. *)
Definition await {A : Type} (p : settled A) : js A :=
  match p with
  | Fulfilled a => ret a
  | Rejected e => raise e
  end.

(** ** Running a term *)

(** What the outside world answers. *)
Record platform : Type := {
  env_API_KEY : option string;
  models_generateContent : GoogleGenAI -> request -> settled GenerateContentResponse;
  models_generateContentStream : GoogleGenAI -> request -> settled response_stream;
  reader_readAsDataURL : File -> settled string
}.

Definition answer (P : platform) {X : Type} (op : effect X) : X :=
  match op in effect T return T with
  | EnvApiKey => env_API_KEY P
  | ConsoleWarn _ => tt
  | ConsoleError _ _ => tt
  | GenerateContent ai req => models_generateContent P ai req
  | GenerateContentStream ai req => models_generateContentStream P ai req
  | ReadAsDataURL f => reader_readAsDataURL P f
  | YieldValue _ => tt
  end.

(** What an observer of the function sees, in order. *)
Inductive event : Type :=
| Warned (msg : string)
| Logged (label : string) (e : exn)
| Requested (ai : GoogleGenAI) (req : request)
| StreamRequested (ai : GoogleGenAI) (req : request)
| FileRead (f : File)
| Yielded (v : string).

Definition observe {X : Type} (op : effect X) : list event :=
  match op with
  | EnvApiKey => []
  | ConsoleWarn msg => [Warned msg]
  | ConsoleError label e => [Logged label e]
  | GenerateContent ai req => [Requested ai req]
  | GenerateContentStream ai req => [StreamRequested ai req]
  | ReadAsDataURL f => [FileRead f]
  | YieldValue v => [Yielded v]
  end.

Fixpoint run (P : platform) {A : Type} (m : js A) : list event * settled A :=
  match m with
  | Return a => ([], Fulfilled a)
  | Throw e => ([], Rejected e)
  | Perform op k =>
      let (t, r) := run P (k (answer P op)) in ((observe op ++ t)%list, r)
  end.

Definition trace (P : platform) {A : Type} (m : js A) : list event := fst (run P m).
Definition outcome (P : platform) {A : Type} (m : js A) : settled A := snd (run P m).

(** The requests that reached the service, the fragments a consumer of a
    generator received, and the console lines, read off a trace. *)
Fixpoint requests (t : list event) : list (GoogleGenAI * request) :=
  match t with
  | [] => []
  | Requested ai req :: t' => (ai, req) :: requests t'
  | StreamRequested ai req :: t' => (ai, req) :: requests t'
  | _ :: t' => requests t'
  end.

Fixpoint fragments (t : list event) : list string :=
  match t with
  | [] => []
  | Yielded v :: t' => v :: fragments t'
  | _ :: t' => fragments t'
  end.

Fixpoint warnings (t : list event) : list string :=
  match t with
  | [] => []
  | Warned msg :: t' => msg :: warnings t'
  | _ :: t' => warnings t'
  end.

(** ** The service *)

Definition DUMMY_KEY : string := "DUMMY_KEY_FOR_DEMO".

Definition MISSING_KEY_WARNING : string :=
  "Gemini API Key is missing. Check process.env.API_KEY".

Definition getAIClient : js GoogleGenAI :=
  apiKey <- perform EnvApiKey ;;
  (if negb (truthy apiKey)
   then perform (ConsoleWarn MISSING_KEY_WARNING)
   else ret tt) ;;
  ret {| apiKey := js_or apiKey DUMMY_KEY |}.

(** The default value of the [modelId] parameter. *)
Definition default_modelId (modelId : option string) : string :=
  match modelId with
  | Some m => m
  | None => "gemini-3-flash-preview"
  end.

Definition text_request (prompt modelId : string) (sys : option string) : request :=
  {| model := modelId;
     contents := PromptContents prompt;
     config := Some {| systemInstruction := sys;
                       thinkingConfig :=
                         if includes modelId "gemini-3"
                         then Some {| thinkingBudget := 0 |} else None;
                       imageConfig := None |} |}.

Definition generateText (prompt : string) (modelId : option string)
    (sys : option string) : js string :=
  let modelId := default_modelId modelId in
  catch
    (ai <- getAIClient ;;
     p <- perform (GenerateContent ai (text_request prompt modelId sys)) ;;
     response <- await p ;;
     ret (js_or (text response) "No response generated."))
    (fun error =>
       perform (ConsoleError "Gemini GenerateText Error:" error) ;;
       raise error).

(** [response.candidates?.[0]?.content?.parts || []]. *)
Definition first_candidate_parts (response : GenerateContentResponse) : list Part :=
  match candidates response with
  | Some (candidate :: _) =>
      match content candidate with
      | Some c =>
          match parts c with
          | Some ps => ps
          | None => []
          end
      | None => []
      end
  | Some [] => []
  | None => []
  end.

(** The template literal [`data:${mimeType};base64,${data}`]. *)
Definition data_uri (mimeType data : string) : string :=
  "data:" ++ mimeType ++ ";base64," ++ data.

(** The [for (const part of ...)] loop of [generateImage], with the [throw]
    that follows it: the first part with [inlineData] returns from the
    function. *)
Fixpoint first_inline_image (ps : list Part) : js string :=
  match ps with
  | [] => raise (Error "No image data returned")
  | part :: rest =>
      match inlineData part with
      | Some d => ret (data_uri (blob_mimeType d) (blob_data d))
      | None => first_inline_image rest
      end
  end.

Definition image_request (prompt : string) : request :=
  {| model := "gemini-2.5-flash-image";
     contents := PartsContents [TextPart prompt];
     config := Some {| systemInstruction := None;
                       thinkingConfig := None;
                       imageConfig := Some {| aspectRatio := "1:1" |} |} |}.

Definition generateImage (prompt : string) : js string :=
  catch
    (ai <- getAIClient ;;
     p <- perform (GenerateContent ai (image_request prompt)) ;;
     response <- await p ;;
     first_inline_image (first_candidate_parts response))
    (fun error =>
       perform (ConsoleError "Gemini GenerateImage Error:" error) ;;
       raise error).

(** [for await (const chunk of responseStream) body]. *)
Fixpoint for_await (responseStream : response_stream)
    (body : GenerateContentResponse -> js unit) : js unit :=
  match responseStream with
  | StreamEnd => ret tt
  | StreamFail e => raise e
  | StreamChunk chunk rest => body chunk ;; for_await rest body
  end.

Definition STREAM_ERROR : string := " [Error generating stream]".

Definition stream_request (prompt modelId : string) (sys : option string) : request :=
  {| model := modelId;
     contents := PromptContents prompt;
     config := Some {| systemInstruction := sys;
                       thinkingConfig := None;
                       imageConfig := None |} |}.

(** The body of the loop of [streamText]: [if (chunk.text) yield chunk.text]. *)
Definition yield_text (chunk : GenerateContentResponse) : js unit :=
  match text chunk with
  | Some t => if t =? "" then ret tt else perform (YieldValue t)
  | None => ret tt
  end.

(** The async generator.  Its [yield]s are [YieldValue] operations; the
    promise of the final [next()] is the outcome of the term. *)
Definition streamText (prompt : string) (modelId : option string)
    (sys : option string) : js unit :=
  let modelId := default_modelId modelId in
  catch
    (ai <- getAIClient ;;
     p <- perform (GenerateContentStream ai (stream_request prompt modelId sys)) ;;
     responseStream <- await p ;;
     for_await responseStream yield_text)
    (fun error =>
       perform (ConsoleError "Gemini StreamText Error:" error) ;;
       perform (YieldValue STREAM_ERROR)).

(** [result.split(',')[1]]. *)
Definition strip_data_url_prefix (result : string) : option string :=
  nth_error (split "," result) 1.

Definition vision_request (imageFile : File) (base64Data : option string)
    (prompt : string) : request :=
  {| model := "gemini-2.5-flash-image";
     contents := PartsContents
                   [InlineDataPart (file_type imageFile) base64Data;
                    TextPart prompt];
     config := None |}.

(** The promise around the [FileReader]: [onloadend] resolves with
    [result.split(',')[1]]; [onerror], which fires first on a failed read,
    rejects. *)
Definition read_base64 (imageFile : File) : js (option string) :=
  p <- perform (ReadAsDataURL imageFile) ;;
  result <- await p ;;
  ret (strip_data_url_prefix result).

Definition analyzeImage (imageFile : File) (prompt : string) : js string :=
  catch
    (ai <- getAIClient ;;
     base64Data <- read_base64 imageFile ;;
     p <- perform (GenerateContent ai (vision_request imageFile base64Data prompt)) ;;
     response <- await p ;;
     ret (js_or (text response) "No analysis generated."))
    (fun error =>
       perform (ConsoleError "Gemini Vision Error:" error) ;;
       ret "Failed to analyze image.").

(** ** The generator as its consumer sees it *)

(** The value of a [yield], when the operation is one. *)
Definition yielded {X : Type} (op : effect X) : option string :=
  match op with
  | YieldValue v => Some v
  | _ => None
  end.

(** What the promise of [generator.next()] settles to: a value, with the
    suspended generator; [done]; or a rejection. *)
Inductive iterator_result : Type :=
| IterValue (value : string) (suspended : js unit)
| IterDone
| IterThrow (e : exn).

(** [generator.next()]: resume until the next [yield], the end or a throw. *)
Fixpoint next (P : platform) (g : js unit) : list event * iterator_result :=
  match g with
  | Return _ => ([], IterDone)
  | Throw e => ([], IterThrow e)
  | Perform op k =>
      match yielded op with
      | Some v => ([], IterValue v (k (answer P op)))
      | None =>
          let (t, r) := next P (k (answer P op)) in ((observe op ++ t)%list, r)
      end
  end.

(** [for await (const text of generator)], as [streamInfer] consumes the
    generator: pull until it is done.  [fuel] bounds the number of pulls. *)
Fixpoint pull_all (fuel : nat) (P : platform) (g : js unit)
    : option (list string * settled unit) :=
  match fuel with
  | O => None
  | S fuel' =>
      match snd (next P g) with
      | IterValue v suspended =>
          match pull_all fuel' P suspended with
          | Some (vs, r) => Some (v :: vs, r)
          | None => None
          end
      | IterDone => Some ([], Fulfilled tt)
      | IterThrow e => Some ([], Rejected e)
      end
  end.

(** ** Vocabulary of the statements *)

(** The client [getAIClient] builds on a platform, and what it prints. *)
Definition client_of (P : platform) : GoogleGenAI :=
  {| apiKey := js_or (env_API_KEY P) DUMMY_KEY |}.

Definition key_warning (P : platform) : list event :=
  if truthy (env_API_KEY P) then [] else [Warned MISSING_KEY_WARNING].

(** The result of running a term and then, if it returned, the rest. *)
Definition and_then {A B : Type} (r : list event * settled A)
    (rest : A -> list event * settled B) : list event * settled B :=
  match r with
  | (t, Fulfilled a) => let (t', r') := rest a in ((t ++ t')%list, r')
  | (t, Rejected e) => (t, Rejected e)
  end.

(** The result of running a term and, if it threw, the handler. *)
Definition or_handle {A : Type} (r : list event * settled A)
    (handler : exn -> list event * settled A) : list event * settled A :=
  match r with
  | (t, Fulfilled a) => (t, Fulfilled a)
  | (t, Rejected e) => let (t', r') := handler e in ((t ++ t')%list, r')
  end.

(** The chunks a stream delivers before it stops, and the error it stops
    with, if any. *)
Fixpoint arrived (s : response_stream) : list GenerateContentResponse :=
  match s with
  | StreamEnd => []
  | StreamFail _ => []
  | StreamChunk chunk rest => chunk :: arrived rest
  end.

Fixpoint failure_of (s : response_stream) : option exn :=
  match s with
  | StreamEnd => None
  | StreamFail e => Some e
  | StreamChunk _ rest => failure_of rest
  end.

(** The text of a chunk that has one. *)
Definition chunk_text (chunk : GenerateContentResponse) : string :=
  match text chunk with
  | Some t => t
  | None => ""
  end.

(** The texts of the chunks whose text is neither absent nor empty. *)
Definition texts (chunks : list GenerateContentResponse) : list string :=
  map chunk_text (filter (fun chunk => truthy (text chunk)) chunks).

(** What a streaming call delivers and how it fails, when the request
    itself may be rejected. *)
Definition delivered (p : settled response_stream) : list GenerateContentResponse :=
  match p with
  | Fulfilled s => arrived s
  | Rejected _ => []
  end.

Definition stream_failure (p : settled response_stream) : option exn :=
  match p with
  | Fulfilled s => failure_of s
  | Rejected e => Some e
  end.

(** What the service answers to the request of [streamText]. *)
Definition stream_reply (P : platform) (prompt : string)
    (modelId sys : option string) : settled response_stream :=
  models_generateContentStream P (client_of P)
    (stream_request prompt (default_modelId modelId) sys).

(** Every part of every candidate of a response, in order. *)
Definition all_parts (response : GenerateContentResponse) : list Part :=
  match candidates response with
  | Some cs =>
      flat_map
        (fun candidate =>
           match content candidate with
           | Some c =>
               match parts c with
               | Some ps => ps
               | None => []
               end
           | None => []
           end) cs
  | None => []
  end.

(** A string without a comma. *)
Fixpoint comma_free (s : string) : bool :=
  match s with
  | EmptyString => true
  | String c rest => negb (Ascii.eqb c ",") && comma_free rest
  end.

(** The base64 alphabet, with its padding character. *)
Definition base64_char (c : ascii) : bool :=
  let n := nat_of_ascii c in
  (((65 <=? n) && (n <=? 90)) || ((97 <=? n) && (n <=? 122))
   || ((48 <=? n) && (n <=? 57)) || (n =? 43) || (n =? 47) || (n =? 61))%nat.

Fixpoint is_base64 (s : string) : bool :=
  match s with
  | EmptyString => true
  | String c rest => base64_char c && is_base64 rest
  end.

(** ** The AI context: the callers of the service

    The sub-systems that [AIProvider] builds around the service (third
    document of [src/unnamed/part_000]). *)

(** [capabilities.includes(name)] on an array of strings. *)
Definition array_includes (xs : list string) (x : string) : bool :=
  existsb (String.eqb x) xs.

(** [modelManager.selectBestModel]. *)
Definition selectBestModel (capabilities : list string) : string :=
  if array_includes capabilities "sentiment_analysis" then "gemini-3-flash-preview"
  else if array_includes capabilities "generation" then "gemini-3-flash-preview"
  else "gemini-3-flash-preview".

(** The [payload] of an inference: a string, or an object with a [prompt]. *)
Inductive inference_payload : Type :=
| PayloadString (s : string)
| PayloadObject (prompt : string).

(** [typeof payload === 'string' ? payload : payload.prompt]. *)
Definition payload_prompt (payload : inference_payload) : string :=
  match payload with
  | PayloadString s => s
  | PayloadObject prompt => prompt
  end.

Record inference : Type := { output : string }.

(** [modelManager.infer]. *)
Definition infer (modelId : string) (payload : inference_payload) : js inference :=
  let prompt := payload_prompt payload in
  text <- generateText prompt (Some modelId) None ;;
  ret {| output := text |}.

(** The value a [yield] hands over together with what resumes the
    generator, when the operation is a [yield]. *)
Definition yield_of {X : Type} (op : effect X) : option (string * X) :=
  match op in effect T return option (string * T) with
  | YieldValue v => Some (v, tt)
  | _ => None
  end.

(** [for await (const text of generator) body] inside an async function or
    generator: the effects of the inner generator are those of the loop,
    and each of its values runs the body. *)
Fixpoint for_await_of (generator : js unit) (body : string -> js unit) : js unit :=
  match generator with
  | Return _ => ret tt
  | Throw e => raise e
  | Perform op k =>
      match yield_of op with
      | Some (v, resume) => body v ;; for_await_of (k resume) body
      | None => Perform op (fun x => for_await_of (k x) body)
      end
  end.

(** [modelManager.streamInfer].  The object [{ token: text }] it yields is
    represented by its only field. *)
Definition streamInfer (modelId : string) (payload : inference_payload) : js unit :=
  let prompt := payload_prompt payload in
  let generator := streamText prompt (Some modelId) None in
  for_await_of generator (fun text => perform (YieldValue text)).

(** [generativeContentStudio]: its [generateImage] and [generateText] are
    named [studio_generateImage] and [studio_generateText] here. *)
Definition studio_generateImage (prompt : string) : js string :=
  generateImage prompt.

Definition generateCode (prompt lang : string) : js string :=
  generateText
    ("Generate production ready " ++ lang ++ " code for: " ++ prompt
     ++ ". Only output the code.") None None.

Record ui_component : Type := { code : string; previewUrl : string }.

Definition designUIComponent (prompt theme : string) : js ui_component :=
  code <- generateText
            ("Design a React component using Tailwind CSS for: " ++ prompt
             ++ ". Theme: " ++ theme ++ ". Return only the TSX code.") None None ;;
  ret {| code := code;
         previewUrl := "http://localhost:3000/preview/ui_component_x" |}.

Definition studio_generateText (prompt : string) : js string :=
  generateText prompt None None.

(** The payload of [universalInterfaceCoordinator.processInput], an object
    of free shape: what the coordinator reads of it are its [text] and its
    [imageBlob]; the other properties are kept as they come. *)
Record input_payload : Type := {
  payload_text : option string;
  imageBlob : option File;
  payload_rest : list (string * string)
}.

Definition IMAGE_PROMPT : string :=
  "Describe this image in detail for a blind user.".

(** [universalInterfaceCoordinator.processInput].  The object spread
    [{ text: ..., ...payload }] lets a [text] of the payload win. *)
Definition processInput (uid : string) (payload : input_payload)
    (modality : string) : js input_payload :=
  match (if modality =? "vision" then imageBlob payload else None) with
  | Some blob =>
      analysis <- analyzeImage blob IMAGE_PROMPT ;;
      ret {| payload_text :=
               match payload_text payload with
               | Some t => Some t
               | None => Some ("[Image Analysis]: " ++ analysis)
               end;
             imageBlob := imageBlob payload;
             payload_rest := payload_rest payload |}
  | None =>
      if modality =? "text" then ret payload
      else if modality =? "speech" then
        ret {| payload_text :=
                 Some ("Audio transcribed: "
                       ++ js_or (payload_text payload) "Hello system.");
               imageBlob := None;
               payload_rest := [] |}
      else
        ret {| payload_text := Some ("Processed " ++ modality ++ " input.");
               imageBlob := None;
               payload_rest := [] |}
  end.

(** The [content] handed to [generateOutput] by the chat: [{ text,
    sourcePrompt }]. *)
Record output_content : Type := {
  content_text : option string;
  sourcePrompt : option string
}.

(** What [generateOutput] returns: a text, the content object itself, an
    image URL, an audio blob of the given type, or a fallback text. *)
Inductive generated_output : Type :=
| OutputText (t : string)
| OutputContent (c : output_content)
| OutputImage (imageUrl : string)
| OutputAudio (blob_type : string)
| OutputFallback (t : string).

(** [universalInterfaceCoordinator.generateOutput].  In a template
    literal an object reads ["[object Object]"]. *)
Definition generateOutput (uid : string) (c : output_content)
    (modality : string) : js generated_output :=
  if modality =? "text" then
    ret (match content_text c with
         | Some t => if t =? "" then OutputContent c else OutputText t
         | None => OutputContent c
         end)
  else if modality =? "vision" then
    url <- generateImage (js_or (sourcePrompt c) "Abstract visualization") ;;
    ret (OutputImage url)
  else if modality =? "speech" then ret (OutputAudio "audio/mp3")
  else
    ret (OutputFallback
           ("Output in " ++ modality
            ++ " not fully supported, falling back to text: "
            ++ js_or (content_text c) "[object Object]")).

(** *** The agent registry *)

Inductive agent_status : Type := Idle | Executing | Offline | Learning.
Inductive task_status : Type := Pending | InProgress | Completed | Failed.
Inductive task_priority : Type := Low | Medium | High | Critical.

Record AITask : Type := {
  task_id : string;
  task_name : string;
  task_description : string;
  task_state : task_status;
  assignedAgentId : option string;
  priority : task_priority;
  task_output : option string
}.

Record AIAgent : Type := {
  agent_id : string;
  agent_name : string;
  persona : string;
  role : string;
  status : agent_status;
  capabilities : list string;
  assignedTasks : list AITask;
  currentGoal : string;
  memoryCapacity : string;
  learningRate : string;
  ethicalGuidelines : string;
  securityClearance : string;
  resourceAllocation : list (string * Z);
  version : string;
  lastOnline : Z;
  isAutonomous : bool;
  trustScore : Z
}.

(** [xs.findIndex(p)]: the first index whose element satisfies [p], or
    [-1]. *)
Fixpoint findIndex {A : Type} (p : A -> bool) (xs : list A) : Z :=
  match xs with
  | [] => (-1)%Z
  | x :: rest =>
      if p x then 0%Z
      else let i := findIndex p rest in
           if (i <? 0)%Z then (-1)%Z else (i + 1)%Z
  end.

(** [const newArr = [...xs]; newArr[idx] = x; return newArr] for an index
    inside the array. *)
Fixpoint with_element {A : Type} (xs : list A) (idx : nat) (x : A) : list A :=
  match xs, idx with
  | [], _ => []
  | _ :: rest, O => x :: rest
  | y :: rest, S idx' => y :: with_element rest idx' x
  end.

(** [agentOrchestrator.registerAgent]: the function it hands to
    [setAgents]. *)
Definition registerAgent (agent : AIAgent) (prev : list AIAgent) : list AIAgent :=
  let idx := findIndex (fun a => agent_id a =? agent_id agent) prev in
  if (0 <=? idx)%Z then with_element prev (Z.to_nat idx) agent
  else (prev ++ [agent])%list.

(** [agentOrchestrator.getAgent]: [agents.find(a => a.id === id)]. *)
Definition getAgent (agents : list AIAgent) (id : string) : option AIAgent :=
  find (fun a => agent_id a =? id) agents.

(** *** The subscribers of the event logger

    Callbacks are compared by reference ([cb !== callback]); a reference
    is represented by a number. *)

Definition callback : Type := nat.

(** [subscribers.current.push(callback)]. *)
Definition subscribe (cb : callback) (subscribers : list callback) : list callback :=
  (subscribers ++ [cb])%list.

(** The function [subscribeToEvents] returns:
    [subscribers.current.filter(cb => cb !== callback)]. *)
Definition unsubscribe (cb : callback) (subscribers : list callback) : list callback :=
  filter (fun other => negb (Nat.eqb other cb)) subscribers.

(** ** Example platforms *)

Definition FETCH_FAILED : exn :=
  {| err_name := "TypeError"; message := "Failed to fetch" |}.

(** No credential, and nothing answers. *)
Definition offline : platform :=
  {| env_API_KEY := None;
     models_generateContent := fun _ _ => Rejected FETCH_FAILED;
     models_generateContentStream := fun _ _ => Rejected FETCH_FAILED;
     reader_readAsDataURL := fun _ => Rejected FETCH_FAILED |}.

(** A one by one pixel PNG in base64. *)
Definition PIXEL : string :=
  "iVBORw0KGgoAAAANSUhEUgAAAAEAAAABCAYAAAAfFcSJAAAADUlEQVR42mNkYPhfDwAChwGA60e6kgAAAABJRU5ErkJggg==".

Definition text_chunk (t : option string) : GenerateContentResponse :=
  {| text := t; candidates := None |}.

Definition image_part (mime data : string) : Part :=
  {| inlineData := Some {| blob_mimeType := mime; blob_data := data |};
     part_text := None |}.

Definition caption_part (t : string) : Part :=
  {| inlineData := None; part_text := Some t |}.

Definition response_with (t : option string) (ps : list Part) : GenerateContentResponse :=
  {| text := t;
     candidates := Some [ {| content := Some {| parts := Some ps |} |} ] |}.

(** A service that answers every request with [response], streams
    [stream], and a reader that encodes every file around [PIXEL]. *)
Definition answering (key : option string) (response : GenerateContentResponse)
    (stream : response_stream) : platform :=
  {| env_API_KEY := key;
     models_generateContent := fun _ _ => Fulfilled response;
     models_generateContentStream := fun _ _ => Fulfilled stream;
     reader_readAsDataURL := fun f => Fulfilled (data_uri (file_type f) PIXEL) |}.

(** A service that is reachable for reading files but fails every request. *)
Definition failing (e : exn) (stream : response_stream) : platform :=
  {| env_API_KEY := Some "key";
     models_generateContent := fun _ _ => Rejected e;
     models_generateContentStream := fun _ _ => Fulfilled stream;
     reader_readAsDataURL := fun f => Fulfilled (data_uri (file_type f) PIXEL) |}.

(** Two chunks of text around an empty one and one without text, and then
    the connection drops, or the stream ends. *)
Definition broken_stream : response_stream :=
  StreamChunk (text_chunk (Some "Hel"))
    (StreamChunk (text_chunk (Some ""))
       (StreamChunk (text_chunk None)
          (StreamChunk (text_chunk (Some "lo")) (StreamFail FETCH_FAILED)))).

Definition whole_stream : response_stream :=
  StreamChunk (text_chunk (Some "Hel"))
    (StreamChunk (text_chunk (Some ""))
       (StreamChunk (text_chunk None)
          (StreamChunk (text_chunk (Some "lo")) StreamEnd))).

(** A MIME type with a quoted parameter that holds a comma:
    [image/png;title=<quote>a,b<quote>]. *)
Definition COMMA_MIME : string :=
  "image/png;title=" ++ String (ascii_of_nat 34) "a,b" ++ String (ascii_of_nat 34) "".

(** A file that declares that type. *)
Definition comma_file : File := {| file_type := COMMA_MIME; file_bytes := [] |}.

Definition pixel_file : File := {| file_type := "image/png"; file_bytes := [] |}.

(** A response whose second candidate alone holds an image. *)
Definition two_candidates : GenerateContentResponse :=
  {| text := Some "a cat";
     candidates :=
       Some [ {| content := Some {| parts := Some [caption_part "a cat"] |} |};
              {| content := Some {| parts := Some [image_part "image/png" PIXEL] |} |} ] |}.

(** A reader whose result holds no comma. *)
Definition bare_reader : platform :=
  {| env_API_KEY := Some "key";
     models_generateContent := fun _ _ => Fulfilled (text_chunk (Some "Nothing to see."));
     models_generateContentStream := fun _ _ => Fulfilled StreamEnd;
     reader_readAsDataURL := fun _ => Fulfilled "data:" |}.

(** The prompt that [designUIComponent] sends. *)
Definition DESIGN_PROMPT (prompt theme : string) : string :=
  "Design a React component using Tailwind CSS for: " ++ prompt
  ++ ". Theme: " ++ theme ++ ". Return only the TSX code.".

(** Two agents under one identifier, and a third one. *)
Definition agent (id name : string) (s : agent_status) : AIAgent :=
  {| agent_id := id; agent_name := name; persona := "Analytical & Precise";
     role := "analyst"; status := s; capabilities := ["data_mining"];
     assignedTasks := []; currentGoal := "Standby"; memoryCapacity := "high";
     learningRate := "high"; ethicalGuidelines := "strict";
     securityClearance := "level_3"; resourceAllocation := [];
     version := "2.1"; lastOnline := 0; isAutonomous := true; trustScore := 98 |}.

(** * Properties *)

(** ** How [run] goes through sequencing and [try]/[catch] *)

Lemma run_bind (P : platform) (A B : Type) (m : js A) (f : A -> js B) :
  run P (bind m f) = and_then (run P m) (fun a => run P (f a)).
Proof.
  induction m as [a | e | X op k IH]; simpl.
  - destruct (run P (f a)); reflexivity.
  - reflexivity.
  - change (js_bind (k (answer P op)) f) with (bind (k (answer P op)) f).
    rewrite IH. destruct (run P (k (answer P op))) as [t [a | e]]; simpl.
    + destruct (run P (f a)). now rewrite app_assoc.
    + reflexivity.
Qed.

Lemma run_catch (P : platform) (A : Type) (m : js A) (h : exn -> js A) :
  run P (catch m h) = or_handle (run P m) (fun e => run P (h e)).
Proof.
  induction m as [a | e | X op k IH]; simpl.
  - reflexivity.
  - destruct (run P (h e)); reflexivity.
  - change (try_catch (k (answer P op)) h) with (catch (k (answer P op)) h).
    rewrite IH. destruct (run P (k (answer P op))) as [t [a | e]]; simpl.
    + reflexivity.
    + destruct (run P (h e)). now rewrite app_assoc.
Qed.

Lemma run_perform (P : platform) (X : Type) (op : effect X) :
  run P (perform op) = (observe op, Fulfilled (answer P op)).
Proof. simpl. now rewrite app_nil_r. Qed.

Lemma run_await (P : platform) (A : Type) (p : settled A) :
  run P (await p) = ([], p).
Proof. destruct p; reflexivity. Qed.

Lemma run_ret (P : platform) (A : Type) (a : A) :
  run P (ret a) = ([], Fulfilled a).
Proof. reflexivity. Qed.

Lemma run_raise (P : platform) (A : Type) (e : exn) :
  run P (raise e : js A) = ([], Rejected e).
Proof. reflexivity. Qed.

Lemma run_getAIClient (P : platform) :
  run P getAIClient = (key_warning P, Fulfilled (client_of P)).
Proof.
  unfold getAIClient, key_warning, client_of. simpl.
  destruct (truthy (env_API_KEY P)); reflexivity.
Qed.

(** Push [run] through the structure of a service function. *)
Ltac run_steps :=
  repeat first
    [ rewrite run_catch | rewrite run_getAIClient | rewrite run_perform
    | rewrite run_await | rewrite run_ret | rewrite run_raise | rewrite run_bind
    | progress cbn [and_then or_handle answer observe] ].

(** Close a goal that equates two results up to the bracketing of traces. *)
Ltac same_trace := rewrite <- ?app_assoc; cbn [app]; rewrite ?app_nil_r; reflexivity.

(** ** Strings *)

Lemma js_or_text (t d : string) : t <> "" -> js_or (Some t) d = t.
Proof.
  intros Ht. unfold js_or. destruct (String.eqb_spec t ""); [contradiction | reflexivity].
Qed.

Lemma js_or_fallback (v : option string) (d : string) :
  truthy v = false -> js_or v d = d.
Proof.
  destruct v as [s |]; simpl; [| reflexivity].
  destruct (s =? ""); [reflexivity | discriminate].
Qed.

Lemma js_or_nonempty (v : option string) (d : string) : d <> "" -> js_or v d <> "".
Proof.
  intros Hd. destruct v as [s |]; simpl; [| exact Hd].
  destruct (String.eqb_spec s ""); assumption.
Qed.

Lemma truthy_false (v : option string) :
  truthy v = false <-> v = None \/ v = Some "".
Proof.
  destruct v as [s |]; simpl.
  - destruct (String.eqb_spec s ""); simpl; split; intros H; subst; auto; try discriminate.
    destruct H as [H | H]; [discriminate | congruence].
  - split; auto.
Qed.

(** ** [generateText] *)

Lemma run_generateText (P : platform) (prompt : string) (modelId sys : option string) :
  let req := text_request prompt (default_modelId modelId) sys in
  run P (generateText prompt modelId sys) =
  match models_generateContent P (client_of P) req with
  | Fulfilled response =>
      ((key_warning P ++ [Requested (client_of P) req])%list,
       Fulfilled (js_or (text response) "No response generated."))
  | Rejected e =>
      ((key_warning P ++
        [Requested (client_of P) req; Logged "Gemini GenerateText Error:" e])%list,
       Rejected e)
  end.
Proof.
  intros req. unfold generateText. fold req. run_steps.
  destruct (models_generateContent P (client_of P) req) as [response | e];
    run_steps; same_trace.
Qed.

(** ** Reading a trace *)

Lemma requests_app (t u : list event) :
  requests (t ++ u) = (requests t ++ requests u)%list.
Proof.
  induction t as [| ev t IH]; simpl; [reflexivity |].
  destruct ev; simpl; now rewrite IH.
Qed.

Lemma fragments_app (t u : list event) :
  fragments (t ++ u) = (fragments t ++ fragments u)%list.
Proof.
  induction t as [| ev t IH]; simpl; [reflexivity |].
  destruct ev; simpl; now rewrite IH.
Qed.

Lemma fragments_Yielded (vs : list string) : fragments (map Yielded vs) = vs.
Proof. induction vs as [| v vs IH]; simpl; congruence. Qed.

Lemma requests_Yielded (vs : list string) : requests (map Yielded vs) = [].
Proof. induction vs as [| v vs IH]; simpl; congruence. Qed.

Lemma requests_key_warning (P : platform) : requests (key_warning P) = [].
Proof. unfold key_warning. destruct (truthy (env_API_KEY P)); reflexivity. Qed.

Lemma fragments_key_warning (P : platform) : fragments (key_warning P) = [].
Proof. unfold key_warning. destruct (truthy (env_API_KEY P)); reflexivity. Qed.

(** C2. A text call that the service answers returns the generated text when
    that text is not empty and the fallback ["No response generated."] when
    the service returned no text or an empty one; what it returns is never
    the empty string.  This holds for every prompt, the non-empty ones
    among them. *)
Theorem generateText_success (P : platform) (prompt : string)
    (modelId sys : option string) (response : GenerateContentResponse) :
  models_generateContent P (client_of P)
    (text_request prompt (default_modelId modelId) sys) = Fulfilled response ->
  exists s : string,
    outcome P (generateText prompt modelId sys) = Fulfilled s
    /\ s <> ""
    /\ (forall t, text response = Some t -> t <> "" -> s = t)
    /\ (text response = None \/ text response = Some "" ->
        s = "No response generated.").
Proof.
  intros Hreply. unfold outcome. rewrite run_generateText, Hreply. cbn [snd].
  exists (js_or (text response) "No response generated."). repeat split.
  - apply js_or_nonempty. discriminate.
  - intros t Ht Hne. rewrite Ht. now apply js_or_text.
  - intros Hempty. apply js_or_fallback. now apply truthy_false.
Qed.

Lemma generateText_success_witness :
  exists s : string,
    outcome (answering None (text_chunk (Some "Hello.")) StreamEnd)
      (generateText "Say hello" None None) = Fulfilled s
    /\ s <> ""
    /\ (forall t, Some "Hello." = Some t -> t <> "" -> s = t)
    /\ (Some "Hello." = None \/ Some "Hello." = Some "" ->
        s = "No response generated.").
Proof.
  apply (@generateText_success (answering None (text_chunk (Some "Hello.")) StreamEnd)
           "Say hello" None None (text_chunk (Some "Hello."))).
  reflexivity.
Defined.

(** C3. When the transport or the service fails a text call, the call
    rejects with that very error, and the service was asked exactly once. *)
Theorem generateText_failure (P : platform) (prompt : string)
    (modelId sys : option string) (e : exn) :
  models_generateContent P (client_of P)
    (text_request prompt (default_modelId modelId) sys) = Rejected e ->
  outcome P (generateText prompt modelId sys) = Rejected e
  /\ requests (trace P (generateText prompt modelId sys)) =
     [(client_of P, text_request prompt (default_modelId modelId) sys)].
Proof.
  intros Hreply. unfold outcome, trace. rewrite run_generateText, Hreply.
  cbn [fst snd]. split; [reflexivity |].
  now rewrite requests_app, requests_key_warning.
Qed.

Lemma generateText_failure_witness :
  outcome offline (generateText "Say hello" None None) = Rejected FETCH_FAILED
  /\ requests (trace offline (generateText "Say hello" None None)) =
     [(client_of offline,
       text_request "Say hello" (default_modelId None) None)].
Proof.
  apply (@generateText_failure offline "Say hello" None None FETCH_FAILED).
  reflexivity.
Defined.

(** ** [generateImage] *)

(** The loop over the parts has no effect of its own. *)
Lemma first_inline_image_none (ps : list Part) :
  Forall (fun part => inlineData part = None) ps ->
  first_inline_image ps = raise (Error "No image data returned").
Proof.
  induction 1 as [| part rest Hpart _ IH]; simpl; [reflexivity |].
  now rewrite Hpart.
Qed.

Lemma first_inline_image_found (before after : list Part) (part : Part) (d : Blob) :
  Forall (fun part => inlineData part = None) before ->
  inlineData part = Some d ->
  first_inline_image (before ++ part :: after) =
  ret (data_uri (blob_mimeType d) (blob_data d)).
Proof.
  intros Hbefore Hpart.
  induction Hbefore as [| p rest Hp _ IH]; simpl.
  - now rewrite Hpart.
  - now rewrite Hp.
Qed.

(** A list with an inline part splits at its first one. *)
Lemma first_inline_split (ps : list Part) :
  Exists (fun part => inlineData part <> None) ps ->
  exists (before : list Part) (part : Part) (d : Blob) (after : list Part),
    ps = (before ++ part :: after)%list
    /\ Forall (fun part => inlineData part = None) before
    /\ inlineData part = Some d.
Proof.
  induction ps as [| p rest IH]; intros Hex.
  - inversion Hex.
  - destruct (inlineData p) as [d |] eqn:Hp.
    + exists [], p, d, rest. auto.
    + assert (Hrest : Exists (fun part => inlineData part <> None) rest).
      { inversion Hex as [? ? Hhead | ? ? Htail]; subst; [congruence | exact Htail]. }
      destruct (IH Hrest) as (before & part & d & after & Heq & Hnone & Hsome).
      exists (p :: before), part, d, after. subst rest. auto.
Qed.

Lemma run_generateImage_answered (P : platform) (prompt : string)
    (response : GenerateContentResponse) :
  models_generateContent P (client_of P) (image_request prompt) = Fulfilled response ->
  run P (generateImage prompt) =
  or_handle
    (and_then (key_warning P ++ [Requested (client_of P) (image_request prompt)],
               Fulfilled tt)%list
       (fun _ => run P (first_inline_image (first_candidate_parts response))))
    (fun e => ([Logged "Gemini GenerateImage Error:" e], Rejected e)).
Proof.
  intros Hreply. unfold generateImage. run_steps. rewrite Hreply. run_steps.
  destruct (run P (first_inline_image (first_candidate_parts response)))
    as [t [uri | e]]; run_steps; same_trace.
Qed.

(** C4. When the parts of the response that the image call inspects carry
    no inline data, the call rejects with an [Error] whose message is
    ["No image data returned"]. *)
Theorem generateImage_no_image (P : platform) (prompt : string)
    (response : GenerateContentResponse) :
  models_generateContent P (client_of P) (image_request prompt) = Fulfilled response ->
  Forall (fun part => inlineData part = None) (first_candidate_parts response) ->
  exists e : exn,
    outcome P (generateImage prompt) = Rejected e
    /\ message e = "No image data returned".
Proof.
  intros Hreply Hnone. unfold outcome.
  rewrite (run_generateImage_answered _ _ Hreply).
  rewrite (first_inline_image_none Hnone). run_steps.
  exists (Error "No image data returned"). split; reflexivity.
Qed.

Lemma generateImage_no_image_witness :
  exists e : exn,
    outcome (answering None (response_with (Some "a cat") [caption_part "a cat"]) StreamEnd)
      (generateImage "a cat") = Rejected e
    /\ message e = "No image data returned".
Proof.
  apply (@generateImage_no_image
           (answering None (response_with (Some "a cat") [caption_part "a cat"]) StreamEnd)
           "a cat" (response_with (Some "a cat") [caption_part "a cat"])).
  - reflexivity.
  - repeat constructor.
Defined.

(** A response without candidates, with an empty candidate list, or whose
    first candidate has no content or no parts, is a response without
    inline data. *)
Lemma first_candidate_parts_missing (response : GenerateContentResponse) :
  candidates response = None
  \/ candidates response = Some []
  \/ (exists c rest, candidates response = Some (c :: rest)
        /\ (content c = None \/ content c = Some {| parts := None |})) ->
  first_candidate_parts response = [].
Proof.
  unfold first_candidate_parts.
  intros [H | [H | (c & rest & H & [Hc | Hc])]]; rewrite H; try rewrite Hc; reflexivity.
Qed.

(** C6, for the candidate the code reads.  When the parts of the first
    candidate of the response contain an inline part, the image call
    returns the first of them as [data:<its MIME type>;base64,<its data>];
    the other candidates play no part. *)
Theorem generateImage_first_inline (P : platform) (prompt : string)
    (response : GenerateContentResponse) (first : Candidate)
    (others : list Candidate) (c : Content) (ps : list Part) :
  models_generateContent P (client_of P) (image_request prompt) = Fulfilled response ->
  candidates response = Some (first :: others) ->
  content first = Some c ->
  parts c = Some ps ->
  Exists (fun part => inlineData part <> None) ps ->
  exists (before : list Part) (part : Part) (d : Blob) (after : list Part),
    ps = (before ++ part :: after)%list
    /\ Forall (fun earlier => inlineData earlier = None) before
    /\ inlineData part = Some d
    /\ outcome P (generateImage prompt) =
       Fulfilled ("data:" ++ blob_mimeType d ++ ";base64," ++ blob_data d).
Proof.
  intros Hreply Hcandidates Hcontent Hparts Hex.
  assert (Hread : first_candidate_parts response = ps).
  { unfold first_candidate_parts. now rewrite Hcandidates, Hcontent, Hparts. }
  destruct (first_inline_split Hex) as (before & part & d & after & Heq & Hnone & Hsome).
  exists before, part, d, after. repeat split; try assumption.
  unfold outcome. rewrite (run_generateImage_answered _ _ Hreply), Hread, Heq.
  rewrite (first_inline_image_found _ _ Hnone Hsome). run_steps. reflexivity.
Qed.

Lemma generateImage_first_inline_witness :
  exists (before : list Part) (part : Part) (d : Blob) (after : list Part),
    [caption_part "a cat"; image_part "image/png" PIXEL; image_part "image/jpeg" "AAAA"]
    = (before ++ part :: after)%list
    /\ Forall (fun earlier => inlineData earlier = None) before
    /\ inlineData part = Some d
    /\ outcome
         (answering (Some "key")
            (response_with None
               [caption_part "a cat"; image_part "image/png" PIXEL;
                image_part "image/jpeg" "AAAA"]) StreamEnd)
         (generateImage "a cat") =
       Fulfilled ("data:" ++ blob_mimeType d ++ ";base64," ++ blob_data d).
Proof.
  apply (@generateImage_first_inline
           (answering (Some "key")
              (response_with None
                 [caption_part "a cat"; image_part "image/png" PIXEL;
                  image_part "image/jpeg" "AAAA"]) StreamEnd)
           "a cat"
           (response_with None
              [caption_part "a cat"; image_part "image/png" PIXEL;
               image_part "image/jpeg" "AAAA"])
           {| content :=
                Some {| parts :=
                          Some [caption_part "a cat"; image_part "image/png" PIXEL;
                                image_part "image/jpeg" "AAAA"] |} |}
           []
           {| parts :=
                Some [caption_part "a cat"; image_part "image/png" PIXEL;
                      image_part "image/jpeg" "AAAA"] |}
           [caption_part "a cat"; image_part "image/png" PIXEL;
            image_part "image/jpeg" "AAAA"]).
  - reflexivity.
  - reflexivity.
  - reflexivity.
  - reflexivity.
  - apply Exists_cons_tl, Exists_cons_hd. discriminate.
Defined.

(** An inline part among the parts of the response is not enough: one
    that sits in a second candidate is never read, and the call rejects. *)
Lemma generateImage_first_inline_counterexample :
  Exists (fun part => inlineData part <> None) (all_parts two_candidates)
  /\ outcome (answering None two_candidates StreamEnd) (generateImage "a cat")
     = Rejected (Error "No image data returned").
Proof.
  split; [| reflexivity].
  apply Exists_cons_tl, Exists_cons_hd. discriminate.
Qed.

(** The first inline part wins, whatever follows it. *)
Example generateImage_pixel :
  outcome
    (answering (Some "key")
       (response_with None
          [caption_part "a cat"; image_part "image/png" "AAAA";
           image_part "image/jpeg" "BBBB"]) StreamEnd)
    (generateImage "a cat") = Fulfilled "data:image/png;base64,AAAA".
Proof. reflexivity. Qed.

(** ** [streamText] *)

Lemma run_yield_text (P : platform) (chunk : GenerateContentResponse) :
  run P (yield_text chunk) = (map Yielded (texts [chunk]), Fulfilled tt).
Proof.
  unfold yield_text, texts. simpl. destruct (text chunk) as [t |] eqn:Ht; simpl.
  - unfold chunk_text. destruct (t =? ""); simpl; [| rewrite Ht]; reflexivity.
  - reflexivity.
Qed.

Lemma texts_cons (chunk : GenerateContentResponse) (chunks : list GenerateContentResponse) :
  texts (chunk :: chunks) = (texts [chunk] ++ texts chunks)%list.
Proof.
  unfold texts. simpl. destruct (truthy (text chunk)); reflexivity.
Qed.

(** The loop yields the texts of the chunks in their order of arrival and
    ends as the stream ends. *)
Lemma run_for_await (P : platform) (s : response_stream) :
  run P (for_await s yield_text) =
  (map Yielded (texts (arrived s)),
   match failure_of s with
   | None => Fulfilled tt
   | Some e => Rejected e
   end).
Proof.
  induction s as [| e | chunk rest IH]; simpl for_await; try reflexivity.
  run_steps. rewrite run_yield_text, IH. cbn [and_then arrived failure_of].
  rewrite (texts_cons chunk (arrived rest)), map_app.
  destruct (failure_of rest); reflexivity.
Qed.

(** Every text the loop yields is a non-empty string. *)
Lemma texts_nonempty (chunks : list GenerateContentResponse) :
  Forall (fun fragment => fragment <> "") (texts chunks).
Proof.
  unfold texts. induction chunks as [| chunk rest IH]; simpl; [constructor |].
  destruct (truthy (text chunk)) eqn:Ht; [| exact IH].
  constructor; [| exact IH].
  unfold chunk_text. destruct (text chunk) as [t |]; simpl in Ht; [| discriminate].
  destruct (String.eqb_spec t ""); [discriminate | assumption].
Qed.

Lemma run_streamText (P : platform) (prompt : string) (modelId sys : option string) :
  let req := stream_request prompt (default_modelId modelId) sys in
  let failed e :=
    [Logged "Gemini StreamText Error:" e; Yielded STREAM_ERROR] in
  run P (streamText prompt modelId sys) =
  match models_generateContentStream P (client_of P) req with
  | Rejected e =>
      ((key_warning P ++ StreamRequested (client_of P) req :: failed e)%list,
       Fulfilled tt)
  | Fulfilled s =>
      ((key_warning P ++ StreamRequested (client_of P) req
          :: map Yielded (texts (arrived s))
          ++ match failure_of s with
             | None => []
             | Some e => failed e
             end)%list,
       Fulfilled tt)
  end.
Proof.
  intros req failed. unfold streamText. fold req. run_steps.
  destruct (models_generateContentStream P (client_of P) req) as [s | e]; run_steps.
  - rewrite run_for_await. destruct (failure_of s) as [e |]; run_steps; same_trace.
  - same_trace.
Qed.

(** C1. When the transport or the service fails a streaming call, be it at
    the request or in the middle of the stream, the generator still
    completes normally: after the texts delivered before the failure it
    yields the one fragment [" [Error generating stream]"], which is the
    last thing it does, and the error only reaches the console. *)
Theorem streamText_failure (P : platform) (prompt : string)
    (modelId sys : option string) (e : exn) :
  stream_failure (stream_reply P prompt modelId sys) = Some e ->
  outcome P (streamText prompt modelId sys) = Fulfilled tt
  /\ fragments (trace P (streamText prompt modelId sys)) =
     (texts (delivered (stream_reply P prompt modelId sys))
      ++ [" [Error generating stream]"])%list
  /\ exists before : list event,
       trace P (streamText prompt modelId sys) =
       (before ++ [Logged "Gemini StreamText Error:" e;
                   Yielded " [Error generating stream]"])%list
       /\ fragments before = texts (delivered (stream_reply P prompt modelId sys)).
Proof.
  unfold outcome, trace, stream_reply. rewrite run_streamText.
  set (req := stream_request prompt (default_modelId modelId) sys).
  destruct (models_generateContentStream P (client_of P) req) as [s | e'];
    simpl stream_failure; intros Hfail.
  - rewrite Hfail. cbn [fst snd delivered]. split; [reflexivity |]. split.
    + rewrite fragments_app, fragments_key_warning. cbn [app fragments].
      rewrite fragments_app, fragments_Yielded. reflexivity.
    + exists (key_warning P
              ++ StreamRequested (client_of P) req
              :: map Yielded (texts (arrived s)))%list.
      split; [same_trace |].
      rewrite fragments_app, fragments_key_warning. cbn [app fragments].
      apply fragments_Yielded.
  - injection Hfail as ->. cbn [fst snd delivered]. split; [reflexivity |]. split.
    + rewrite fragments_app, fragments_key_warning. reflexivity.
    + exists (key_warning P ++ [StreamRequested (client_of P) req])%list.
      split; [same_trace |].
      rewrite fragments_app, fragments_key_warning. reflexivity.
Qed.

Lemma streamText_failure_witness :
  outcome (answering None (text_chunk None) broken_stream)
    (streamText "Say hello" None None) = Fulfilled tt
  /\ fragments (trace (answering None (text_chunk None) broken_stream)
                  (streamText "Say hello" None None)) =
     (texts (delivered (stream_reply (answering None (text_chunk None) broken_stream)
                          "Say hello" None None))
      ++ [" [Error generating stream]"])%list
  /\ exists before : list event,
       trace (answering None (text_chunk None) broken_stream)
         (streamText "Say hello" None None) =
       (before ++ [Logged "Gemini StreamText Error:" FETCH_FAILED;
                   Yielded " [Error generating stream]"])%list
       /\ fragments before =
          texts (delivered (stream_reply (answering None (text_chunk None) broken_stream)
                              "Say hello" None None)).
Proof.
  apply (@streamText_failure (answering None (text_chunk None) broken_stream)
           "Say hello" None None FETCH_FAILED).
  reflexivity.
Defined.

(** A request that is rejected outright gives the sentinel alone; a stream
    that breaks gives the sentinel after what had arrived. *)
Example streamText_offline :
  fragments (trace offline (streamText "Say hello" None None)) =
    [" [Error generating stream]"]
  /\ outcome offline (streamText "Say hello" None None) = Fulfilled tt.
Proof. split; reflexivity. Qed.

Example streamText_broken :
  fragments (trace (answering None (text_chunk None) broken_stream)
               (streamText "Say hello" None None)) =
    ["Hel"; "lo"; " [Error generating stream]"].
Proof. reflexivity. Qed.

(** C9. On the success path every fragment the generator yields is a
    non-empty string: the fragments are the texts of the chunks whose text
    is neither absent nor empty, in the order of arrival, and a chunk
    without text leaves no mark in the trace at all. *)
Theorem streamText_success_fragments (P : platform) (prompt : string)
    (modelId sys : option string) (s : response_stream) :
  stream_reply P prompt modelId sys = Fulfilled s ->
  failure_of s = None ->
  fragments (trace P (streamText prompt modelId sys)) =
    map chunk_text (filter (fun chunk => truthy (text chunk)) (arrived s))
  /\ Forall (fun fragment => fragment <> "")
       (fragments (trace P (streamText prompt modelId sys)))
  /\ trace P (streamText prompt modelId sys) =
     (key_warning P
      ++ StreamRequested (client_of P)
           (stream_request prompt (default_modelId modelId) sys)
      :: map Yielded (fragments (trace P (streamText prompt modelId sys))))%list
  /\ outcome P (streamText prompt modelId sys) = Fulfilled tt.
Proof.
  unfold stream_reply, outcome, trace. intros Hreply Hend.
  rewrite run_streamText, Hreply, Hend. cbn [fst snd].
  assert (Hfrag :
    fragments (key_warning P
               ++ StreamRequested (client_of P)
                    (stream_request prompt (default_modelId modelId) sys)
               :: map Yielded (texts (arrived s)) ++ [])%list
    = texts (arrived s)).
  { rewrite fragments_app, fragments_key_warning. cbn [app fragments].
    now rewrite app_nil_r, fragments_Yielded. }
  rewrite Hfrag. repeat split.
  - apply texts_nonempty.
  - now rewrite app_nil_r.
Qed.

Lemma streamText_success_fragments_witness :
  fragments (trace (answering None (text_chunk None) whole_stream)
               (streamText "Say hello" None None)) =
    map chunk_text (filter (fun chunk => truthy (text chunk)) (arrived whole_stream))
  /\ Forall (fun fragment => fragment <> "")
       (fragments (trace (answering None (text_chunk None) whole_stream)
                     (streamText "Say hello" None None)))
  /\ trace (answering None (text_chunk None) whole_stream)
       (streamText "Say hello" None None) =
     (key_warning (answering None (text_chunk None) whole_stream)
      ++ StreamRequested (client_of (answering None (text_chunk None) whole_stream))
           (stream_request "Say hello" (default_modelId None) None)
      :: map Yielded
           (fragments (trace (answering None (text_chunk None) whole_stream)
                         (streamText "Say hello" None None))))%list
  /\ outcome (answering None (text_chunk None) whole_stream)
       (streamText "Say hello" None None) = Fulfilled tt.
Proof.
  apply (@streamText_success_fragments (answering None (text_chunk None) whole_stream)
           "Say hello" None None whole_stream); reflexivity.
Defined.

Example streamText_whole :
  fragments (trace (answering None (text_chunk None) whole_stream)
               (streamText "Say hello" None None)) = ["Hel"; "lo"].
Proof. reflexivity. Qed.

(** ** [analyzeImage] *)

Lemma run_read_base64 (P : platform) (imageFile : File) :
  run P (read_base64 imageFile) =
  match reader_readAsDataURL P imageFile with
  | Fulfilled result => ([FileRead imageFile], Fulfilled (strip_data_url_prefix result))
  | Rejected e => ([FileRead imageFile], Rejected e)
  end.
Proof.
  unfold read_base64. run_steps.
  destruct (reader_readAsDataURL P imageFile); run_steps; reflexivity.
Qed.

Lemma run_analyzeImage (P : platform) (imageFile : File) (prompt : string) :
  run P (analyzeImage imageFile prompt) =
  match reader_readAsDataURL P imageFile with
  | Rejected e =>
      ((key_warning P ++ [FileRead imageFile; Logged "Gemini Vision Error:" e])%list,
       Fulfilled "Failed to analyze image.")
  | Fulfilled result =>
      let req := vision_request imageFile (strip_data_url_prefix result) prompt in
      match models_generateContent P (client_of P) req with
      | Rejected e =>
          ((key_warning P
            ++ [FileRead imageFile; Requested (client_of P) req;
                Logged "Gemini Vision Error:" e])%list,
           Fulfilled "Failed to analyze image.")
      | Fulfilled response =>
          ((key_warning P ++ [FileRead imageFile; Requested (client_of P) req])%list,
           Fulfilled (js_or (text response) "No analysis generated."))
      end
  end.
Proof.
  unfold analyzeImage. run_steps. rewrite run_read_base64.
  destruct (reader_readAsDataURL P imageFile) as [result | e]; run_steps.
  - cbv zeta.
    destruct (models_generateContent P (client_of P)
                (vision_request imageFile (strip_data_url_prefix result) prompt));
      run_steps; same_trace.
  - same_trace.
Qed.

(** The promise of the vision call is never rejected. *)
Lemma analyzeImage_resolves (P : platform) (imageFile : File) (prompt : string) :
  exists s : string, outcome P (analyzeImage imageFile prompt) = Fulfilled s.
Proof.
  unfold outcome. rewrite run_analyzeImage.
  destruct (reader_readAsDataURL P imageFile) as [result | e]; cbv zeta.
  - destruct (models_generateContent P (client_of P)
                (vision_request imageFile (strip_data_url_prefix result) prompt));
      eexists; reflexivity.
  - eexists; reflexivity.
Qed.

(** C5. When reading the file, the transport or the service fails a vision
    call, the call resolves with ["Failed to analyze image."]; the error is
    written to the console and goes no further. *)
Theorem analyzeImage_failure (P : platform) (imageFile : File) (prompt : string)
    (e : exn) :
  reader_readAsDataURL P imageFile = Rejected e
  \/ (exists result : string,
        reader_readAsDataURL P imageFile = Fulfilled result
        /\ models_generateContent P (client_of P)
             (vision_request imageFile (strip_data_url_prefix result) prompt)
           = Rejected e) ->
  outcome P (analyzeImage imageFile prompt) = Fulfilled "Failed to analyze image."
  /\ In (Logged "Gemini Vision Error:" e) (trace P (analyzeImage imageFile prompt)).
Proof.
  unfold outcome, trace. rewrite run_analyzeImage.
  intros [Hread | (result & Hread & Hreply)]; rewrite Hread; cbv zeta;
    try rewrite Hreply; cbn [fst snd]; (split; [reflexivity |]);
    apply in_or_app; right; simpl; auto.
Qed.

Lemma analyzeImage_failure_witness :
  outcome (failing FETCH_FAILED StreamEnd) (analyzeImage pixel_file "Describe")
    = Fulfilled "Failed to analyze image."
  /\ In (Logged "Gemini Vision Error:" FETCH_FAILED)
       (trace (failing FETCH_FAILED StreamEnd) (analyzeImage pixel_file "Describe")).
Proof.
  apply (@analyzeImage_failure (failing FETCH_FAILED StreamEnd) pixel_file
           "Describe" FETCH_FAILED).
  right. exists (data_uri "image/png" PIXEL). split; reflexivity.
Defined.

Example analyzeImage_unreadable :
  outcome offline (analyzeImage pixel_file "Describe")
    = Fulfilled "Failed to analyze image."
  /\ requests (trace offline (analyzeImage pixel_file "Describe")) = [].
Proof. split; reflexivity. Qed.

(** A vision call that the service answers with a text returns that text. *)
Lemma analyzeImage_text (P : platform) (imageFile : File) (prompt result t : string)
    (response : GenerateContentResponse) :
  reader_readAsDataURL P imageFile = Fulfilled result ->
  models_generateContent P (client_of P)
    (vision_request imageFile (strip_data_url_prefix result) prompt)
    = Fulfilled response ->
  text response = Some t -> t <> "" ->
  outcome P (analyzeImage imageFile prompt) = Fulfilled t.
Proof.
  intros Hread Hreply Ht Hne. unfold outcome.
  rewrite run_analyzeImage, Hread. cbv zeta. rewrite Hreply, Ht. cbn [snd].
  now rewrite js_or_text.
Qed.

(** C10. When the service answers a vision call without text, or with an
    empty text, the call resolves with ["No analysis generated."]: neither
    the text of the service, which is absent or empty, nor the fallback of
    a failed call. *)
Theorem analyzeImage_no_text (P : platform) (imageFile : File)
    (prompt result : string) (response : GenerateContentResponse) :
  reader_readAsDataURL P imageFile = Fulfilled result ->
  models_generateContent P (client_of P)
    (vision_request imageFile (strip_data_url_prefix result) prompt)
    = Fulfilled response ->
  text response = None \/ text response = Some "" ->
  outcome P (analyzeImage imageFile prompt) = Fulfilled "No analysis generated."
  /\ outcome P (analyzeImage imageFile prompt) <> Fulfilled "Failed to analyze image."
  /\ text response <> Some "No analysis generated.".
Proof.
  intros Hread Hreply Hempty. unfold outcome.
  rewrite run_analyzeImage, Hread. cbv zeta. rewrite Hreply. cbn [snd].
  rewrite js_or_fallback by now apply truthy_false.
  repeat split; [discriminate |].
  destruct Hempty as [H | H]; rewrite H; discriminate.
Qed.

Lemma analyzeImage_no_text_witness :
  outcome (answering (Some "key") (text_chunk (Some "")) StreamEnd)
    (analyzeImage pixel_file "Describe") = Fulfilled "No analysis generated."
  /\ outcome (answering (Some "key") (text_chunk (Some "")) StreamEnd)
       (analyzeImage pixel_file "Describe") <> Fulfilled "Failed to analyze image."
  /\ text (text_chunk (Some "")) <> Some "No analysis generated.".
Proof.
  apply (@analyzeImage_no_text (answering (Some "key") (text_chunk (Some "")) StreamEnd)
           pixel_file "Describe" (data_uri "image/png" PIXEL) (text_chunk (Some ""))).
  - reflexivity.
  - reflexivity.
  - right. reflexivity.
Defined.

(** ** The credential *)

Lemma warnings_app (t u : list event) :
  warnings (t ++ u) = (warnings t ++ warnings u)%list.
Proof.
  induction t as [| ev t IH]; simpl; [reflexivity |].
  destruct ev; simpl; now rewrite IH.
Qed.

Lemma warnings_Yielded (vs : list string) : warnings (map Yielded vs) = [].
Proof. induction vs as [| v vs IH]; simpl; congruence. Qed.

Lemma run_first_inline_image (P : platform) (ps : list Part) :
  fst (run P (first_inline_image ps)) = [].
Proof.
  induction ps as [| part rest IH]; simpl; [reflexivity |].
  destruct (inlineData part); [reflexivity | exact IH].
Qed.

Lemma trace_generateImage (P : platform) (prompt : string) :
  exists after : list event,
    trace P (generateImage prompt) =
      (key_warning P ++ Requested (client_of P) (image_request prompt) :: after)%list
    /\ requests after = [] /\ warnings after = [].
Proof.
  unfold trace.
  destruct (models_generateContent P (client_of P) (image_request prompt))
    as [response | e] eqn:Hreply.
  - rewrite (run_generateImage_answered _ _ Hreply).
    pose proof (run_first_inline_image P (first_candidate_parts response)) as Hpure.
    destruct (run P (first_inline_image (first_candidate_parts response)))
      as [t [uri | e]]; simpl in Hpure; subst t; cbn [and_then or_handle fst].
    + exists []. split; [same_trace | auto].
    + exists [Logged "Gemini GenerateImage Error:" e]. split; [same_trace | auto].
  - unfold generateImage. run_steps. rewrite Hreply. run_steps. cbn [fst].
    exists [Logged "Gemini GenerateImage Error:" e]. split; [same_trace | auto].
Qed.

(** C7. With no credential in the environment, [getAIClient] prints its
    warning and returns a client made with the placeholder key, and each
    of the four calls then sends its request with that client: the text,
    image and streaming calls always, the vision call as soon as the file
    could be read. *)
Theorem missing_credential_not_fatal (P : platform) :
  env_API_KEY P = None ->
  let placeholder := {| apiKey := "DUMMY_KEY_FOR_DEMO" |} in
  let warning := "Gemini API Key is missing. Check process.env.API_KEY" in
  run P getAIClient = ([Warned warning], Fulfilled placeholder)
  /\ (forall prompt modelId sys,
        warnings (trace P (generateText prompt modelId sys)) = [warning]
        /\ requests (trace P (generateText prompt modelId sys)) =
           [(placeholder, text_request prompt (default_modelId modelId) sys)])
  /\ (forall prompt,
        warnings (trace P (generateImage prompt)) = [warning]
        /\ requests (trace P (generateImage prompt)) =
           [(placeholder, image_request prompt)])
  /\ (forall prompt modelId sys,
        warnings (trace P (streamText prompt modelId sys)) = [warning]
        /\ requests (trace P (streamText prompt modelId sys)) =
           [(placeholder, stream_request prompt (default_modelId modelId) sys)])
  /\ (forall imageFile prompt,
        warnings (trace P (analyzeImage imageFile prompt)) = [warning]
        /\ forall result,
             reader_readAsDataURL P imageFile = Fulfilled result ->
             requests (trace P (analyzeImage imageFile prompt)) =
             [(placeholder,
               vision_request imageFile (strip_data_url_prefix result) prompt)]).
Proof.
  intros Hkey placeholder warning.
  assert (Hclient : client_of P = placeholder)
    by (unfold client_of; now rewrite Hkey).
  assert (Hwarn : key_warning P = [Warned warning])
    by (unfold key_warning; now rewrite Hkey).
  split; [| split; [| split; [| split]]].
  - now rewrite run_getAIClient, Hclient, Hwarn.
  - intros prompt modelId sys. unfold trace. rewrite run_generateText.
    rewrite Hclient.
    destruct (models_generateContent P placeholder
                (text_request prompt (default_modelId modelId) sys));
      cbn [fst]; (rewrite ?requests_app, ?warnings_app, ?requests_key_warning,
        ?requests_Yielded, ?warnings_Yielded;
      cbn [requests warnings app]; rewrite ?app_nil_r); rewrite Hwarn; split; reflexivity.
  - intros prompt.
    destruct (trace_generateImage P prompt) as (after & -> & Hreq & Hw).
    (rewrite ?requests_app, ?warnings_app, ?requests_key_warning,
        ?requests_Yielded, ?warnings_Yielded;
      cbn [requests warnings app]; rewrite ?app_nil_r). rewrite Hreq, Hw, Hwarn, Hclient. split; reflexivity.
  - intros prompt modelId sys. unfold trace. rewrite run_streamText.
    rewrite Hclient.
    destruct (models_generateContentStream P placeholder
                (stream_request prompt (default_modelId modelId) sys)) as [s | e];
      cbn [fst]; (rewrite ?requests_app, ?warnings_app, ?requests_key_warning,
        ?requests_Yielded, ?warnings_Yielded;
      cbn [requests warnings app]; rewrite ?app_nil_r).
    + destruct (failure_of s); (rewrite ?requests_app, ?warnings_app, ?requests_key_warning,
        ?requests_Yielded, ?warnings_Yielded;
      cbn [requests warnings app]; rewrite ?app_nil_r); rewrite Hwarn; split; reflexivity.
    + rewrite Hwarn; split; reflexivity.
  - intros imageFile prompt. unfold trace. rewrite run_analyzeImage.
    rewrite Hclient.
    destruct (reader_readAsDataURL P imageFile) as [result | e]; cbv zeta.
    + destruct (models_generateContent P placeholder
                  (vision_request imageFile (strip_data_url_prefix result) prompt));
        cbn [fst]; (rewrite ?requests_app, ?warnings_app, ?requests_key_warning,
        ?requests_Yielded, ?warnings_Yielded;
      cbn [requests warnings app]; rewrite ?app_nil_r); rewrite Hwarn;
        (split; [reflexivity | intros r [= <-]; reflexivity]).
    + cbn [fst]; (rewrite ?requests_app, ?warnings_app, ?requests_key_warning,
        ?requests_Yielded, ?warnings_Yielded;
      cbn [requests warnings app]; rewrite ?app_nil_r); rewrite Hwarn.
      split; [reflexivity | intros r [=]].
Qed.

Lemma missing_credential_not_fatal_witness :
  run offline getAIClient =
    ([Warned "Gemini API Key is missing. Check process.env.API_KEY"],
     Fulfilled {| apiKey := "DUMMY_KEY_FOR_DEMO" |})
  /\ requests (trace offline (generateText "Say hello" None None)) =
     [({| apiKey := "DUMMY_KEY_FOR_DEMO" |},
       text_request "Say hello" "gemini-3-flash-preview" None)].
Proof.
  pose proof (@missing_credential_not_fatal offline eq_refl) as H.
  split.
  - exact (proj1 H).
  - exact (proj2 (proj1 (proj2 H) "Say hello" None None)).
Defined.

(** An empty credential counts as a missing one. *)
Example empty_credential :
  run (answering (Some "") (text_chunk None) StreamEnd) getAIClient =
    ([Warned MISSING_KEY_WARNING], Fulfilled {| apiKey := DUMMY_KEY |}).
Proof. reflexivity. Qed.

(** With a credential there is no warning and the client carries it. *)
Example given_credential :
  run (answering (Some "secret") (text_chunk None) StreamEnd) getAIClient =
    ([], Fulfilled {| apiKey := "secret" |}).
Proof. reflexivity. Qed.

(** ** Data URIs *)

(** A prefix without a comma stays in front of the first piece. *)
Lemma split_app_comma_free (a b piece : string) (pieces : list string) :
  comma_free a = true ->
  split "," b = piece :: pieces ->
  split "," (a ++ b) = (a ++ piece) :: pieces.
Proof.
  intros Hfree Hb. induction a as [| c a IH]; simpl in *; [exact Hb |].
  apply andb_true_iff in Hfree as [Hc Ha].
  apply negb_true_iff in Hc. rewrite Hc, (IH Ha). reflexivity.
Qed.

Lemma split_comma_free (s : string) : comma_free s = true -> split "," s = [s].
Proof.
  induction s as [| c s IH]; simpl; [reflexivity |].
  intros H. apply andb_true_iff in H as [Hc Hs].
  apply negb_true_iff in Hc. now rewrite Hc, (IH Hs).
Qed.

Lemma base64_char_not_comma (c : ascii) :
  base64_char c = true -> Ascii.eqb c "," = false.
Proof.
  intros Hc. destruct (Ascii.eqb_spec c ","); [| reflexivity].
  subst c. discriminate Hc.
Qed.

Lemma is_base64_comma_free (s : string) : is_base64 s = true -> comma_free s = true.
Proof.
  induction s as [| c s IH]; simpl; [reflexivity |].
  intros H. apply andb_true_iff in H as [Hc Hs].
  now rewrite (base64_char_not_comma _ Hc), (IH Hs).
Qed.

(** The pieces of a data URI whose MIME type and data have no comma. *)
Lemma split_data_uri (mime data : string) :
  comma_free mime = true -> comma_free data = true ->
  split "," (data_uri mime data) = ["data:" ++ mime ++ ";base64"; data].
Proof.
  intros Hmime Hdata. unfold data_uri.
  change (";base64," ++ data) with (";base64" ++ String "," data).
  rewrite (@split_app_comma_free "data:" _ (mime ++ ";base64") [data]);
    [reflexivity | reflexivity |].
  rewrite (@split_app_comma_free mime _ ";base64" [data]);
    [reflexivity | assumption |].
  rewrite (@split_app_comma_free ";base64" _ "" [data]);
    [reflexivity | reflexivity |].
  simpl. now rewrite (split_comma_free _ Hdata).
Qed.

(** Where the MIME type holds no comma the prefix is removed as the
    comment on [split] says: the data URI [data:<mime>;base64,<data>] has
    two pieces, the prefix and the data, [split(',')[1]] is the data
    unchanged, and the vision call sends it with the declared type of the
    file. *)
Theorem data_uri_round_trip (mime data : string) :
  comma_free mime = true ->
  is_base64 data = true ->
  split "," (data_uri mime data) = ["data:" ++ mime ++ ";base64"; data]
  /\ strip_data_url_prefix (data_uri mime data) = Some data
  /\ forall (P : platform) (imageFile : File) (prompt : string),
       file_type imageFile = mime ->
       reader_readAsDataURL P imageFile = Fulfilled (data_uri mime data) ->
       requests (trace P (analyzeImage imageFile prompt)) =
       [(client_of P,
         {| model := "gemini-2.5-flash-image";
            contents := PartsContents [InlineDataPart mime (Some data); TextPart prompt];
            config := None |})].
Proof.
  intros Hmime Hdata. apply is_base64_comma_free in Hdata.
  assert (Hstrip : strip_data_url_prefix (data_uri mime data) = Some data)
    by (unfold strip_data_url_prefix; now rewrite split_data_uri).
  split; [now apply split_data_uri |]. split; [exact Hstrip |].
  intros P imageFile prompt Htype Hread. unfold trace.
  rewrite run_analyzeImage, Hread. cbv zeta. rewrite Hstrip.
  unfold vision_request. rewrite Htype.
  match goal with
  | |- context [models_generateContent P ?ai ?req] =>
      destruct (models_generateContent P ai req)
  end; cbn [fst]; rewrite requests_app, requests_key_warning; reflexivity.
Qed.

Lemma data_uri_round_trip_witness :
  split "," (data_uri "image/png" PIXEL) = ["data:" ++ "image/png" ++ ";base64"; PIXEL]
  /\ strip_data_url_prefix (data_uri "image/png" PIXEL) = Some PIXEL.
Proof.
  pose proof (@data_uri_round_trip "image/png" PIXEL eq_refl eq_refl) as H.
  split; [exact (proj1 H) | exact (proj1 (proj2 H))].
Defined.

(** C8.  The round trip holds wherever the MIME type has no comma, and is
    lost on a file whose declared type holds one, here
    [image/png;title=<quote>a,b<quote>] around the base64 text [PIXEL].  The
    data URI then has three pieces; [split(',')[1]], which the comment above
    it describes as removing the data URL prefix, is the tail of the prefix
    and not the base64 content, and the vision call sends that tail to the
    service as the data of the image. *)
Theorem data_uri_comma_in_type :
  is_base64 PIXEL = true
  /\ split "," (data_uri COMMA_MIME PIXEL) =
     ["data:image/png;title=" ++ String (ascii_of_nat 34) "a";
      "b" ++ String (ascii_of_nat 34) ";base64";
      PIXEL]
  /\ strip_data_url_prefix (data_uri COMMA_MIME PIXEL) =
     Some ("b" ++ String (ascii_of_nat 34) ";base64")
  /\ strip_data_url_prefix (data_uri COMMA_MIME PIXEL) <> Some PIXEL
  /\ reader_readAsDataURL (answering None (text_chunk None) StreamEnd) comma_file
     = Fulfilled (data_uri (file_type comma_file) PIXEL)
  /\ requests (trace (answering None (text_chunk None) StreamEnd)
                 (analyzeImage comma_file "Describe")) =
     [({| apiKey := "DUMMY_KEY_FOR_DEMO" |},
       {| model := "gemini-2.5-flash-image";
          contents :=
            PartsContents
              [InlineDataPart COMMA_MIME
                 (Some ("b" ++ String (ascii_of_nat 34) ";base64"));
               TextPart "Describe"];
          config := None |})].
Proof.
  split; [reflexivity |]. split; [reflexivity |]. split; [reflexivity |].
  split; [discriminate |]. split; reflexivity.
Qed.

(** ** Pulling from the generator *)

(** A consumer that pulls one time more than there are fragments receives
    exactly the fragments of the trace, and sees the generator end the way
    the term does. *)
Lemma pull_all_run (P : platform) (g : js unit) :
  pull_all (S (length (fragments (trace P g)))) P g =
  Some (fragments (trace P g), outcome P g).
Proof.
  unfold trace, outcome.
  induction g as [[] | e | X op k IH]; try reflexivity.
  specialize (IH (answer P op)).
  cbn [run]. destruct (run P (k (answer P op))) as [t r] eqn:Hrun.
  cbn [fst snd] in *.
  destruct op; cbn [observe app fragments];
    try (cbn [pull_all next yielded] in *;
         destruct (next P (k (answer P _))) as [t' r']; exact IH).
  cbn [length]. remember (S (length (fragments t))) as fuel.
  cbn [pull_all next yielded snd]. now rewrite IH.
Qed.

(** The consumer of a failed streaming call is handed the sentinel and then
    [done]; no pull is rejected. *)
Lemma streamText_pulled_after_failure (P : platform) (prompt : string)
    (modelId sys : option string) (e : exn) :
  stream_failure (stream_reply P prompt modelId sys) = Some e ->
  exists fuel : nat,
    pull_all fuel P (streamText prompt modelId sys) =
    Some ((texts (delivered (stream_reply P prompt modelId sys))
           ++ [STREAM_ERROR])%list, Fulfilled tt).
Proof.
  intros Hfail.
  exists (S (length (fragments (trace P (streamText prompt modelId sys))))).
  rewrite pull_all_run. unfold outcome, trace, stream_reply in *.
  rewrite run_streamText.
  destruct (models_generateContentStream P (client_of P)
              (stream_request prompt (default_modelId modelId) sys)) as [s | e'];
    simpl in Hfail; cbn [fst snd delivered].
  - rewrite Hfail, fragments_app, fragments_key_warning. cbn [app fragments].
    now rewrite fragments_app, fragments_Yielded.
  - now rewrite fragments_app, fragments_key_warning.
Qed.

Example pull_broken_stream :
  pull_all 4 (answering None (text_chunk None) broken_stream)
    (streamText "Say hello" None None) =
  Some (["Hel"; "lo"; " [Error generating stream]"], Fulfilled tt).
Proof. reflexivity. Qed.

(** * Further properties of the service *)

(** ** The client and the requests *)

(** [getAIClient] never throws and never builds a client with an empty
    key: a non-empty key of the environment is used as it is and leaves the
    console silent; a missing key and an empty one both print the warning
    and give the placeholder. *)
Theorem getAIClient_key (P : platform) :
  exists (printed : list event) (ai : GoogleGenAI),
    run P getAIClient = (printed, Fulfilled ai)
    /\ apiKey ai <> ""
    /\ (forall k, env_API_KEY P = Some k -> k <> "" ->
        printed = [] /\ apiKey ai = k)
    /\ (env_API_KEY P = None \/ env_API_KEY P = Some "" ->
        printed = [Warned "Gemini API Key is missing. Check process.env.API_KEY"]
        /\ apiKey ai = "DUMMY_KEY_FOR_DEMO").
Proof.
  exists (key_warning P), (client_of P). split; [apply run_getAIClient |].
  unfold key_warning, client_of. cbn [apiKey]. split; [| split].
  - apply js_or_nonempty. discriminate.
  - intros k Hk Hne. rewrite Hk. cbn [truthy].
    destruct (String.eqb_spec k ""); [contradiction |]. cbn [negb].
    split; [reflexivity | now apply js_or_text].
  - intros Hmissing. apply truthy_false in Hmissing. rewrite Hmissing.
    split; [reflexivity | now apply js_or_fallback].
Qed.

Lemma prefix_spec (needle hay : string) :
  prefix needle hay = true <-> exists post, hay = needle ++ post.
Proof.
  revert hay. induction needle as [| c needle IH]; intros hay.
  - destruct hay; simpl; split; eauto.
  - destruct hay as [| d hay]; simpl.
    + split; [discriminate | intros [post H]; discriminate].
    + destruct (ascii_dec c d) as [-> | Hcd].
      * rewrite IH. split; intros [post H]; exists post; congruence.
      * split; [discriminate | intros [post H]; congruence].
Qed.

(** [hay.includes(needle)] holds exactly when [needle] occurs in [hay]. *)
Lemma includes_spec (hay needle : string) :
  includes hay needle = true <-> exists pre post, hay = pre ++ needle ++ post.
Proof.
  induction hay as [| c hay IH].
  - change (includes "" needle) with (prefix needle "").
    rewrite prefix_spec. split.
    + intros [post H]. now exists "", post.
    + intros (pre & post & H). destruct pre; [now exists post | discriminate].
  - change (includes (String c hay) needle)
      with (prefix needle (String c hay) || includes hay needle).
    rewrite orb_true_iff, IH, prefix_spec. split.
    + intros [[post H] | (pre & post & H)].
      * now exists "", post.
      * exists (String c pre), post. simpl. now rewrite H.
    + intros (pre & post & H). destruct pre as [| d pre]; simpl in H.
      * left. now exists post.
      * right. exists pre, post. congruence.
Qed.

(** The one request of a text call names the model it was given, or
    [gemini-3-flash-preview] when none was, carries the prompt and the
    system instruction, and sets the thinking budget to zero exactly when
    the name of the model contains [gemini-3]. *)
Theorem generateText_request (P : platform) (prompt : string)
    (modelId sys : option string) :
  exists (r : request) (cfg : GenerateContentConfig),
    requests (trace P (generateText prompt modelId sys)) = [(client_of P, r)]
    /\ model r = match modelId with
                 | Some m => m
                 | None => "gemini-3-flash-preview"
                 end
    /\ contents r = PromptContents prompt
    /\ config r = Some cfg
    /\ systemInstruction cfg = sys
    /\ ((exists pre post, model r = pre ++ "gemini-3" ++ post) ->
        thinkingConfig cfg = Some {| thinkingBudget := 0 |})
    /\ (~ (exists pre post, model r = pre ++ "gemini-3" ++ post) ->
        thinkingConfig cfg = None).
Proof.
  eexists (text_request prompt (default_modelId modelId) sys), _.
  split; [| split; [| split; [| split; [reflexivity | split; [reflexivity |]]]]].
  - unfold trace. rewrite run_generateText.
    destruct (models_generateContent P (client_of P) _); cbn [fst];
      now rewrite requests_app, requests_key_warning.
  - now destruct modelId.
  - reflexivity.
  - cbn [text_request model thinkingConfig].
    pose proof (includes_spec (default_modelId modelId) "gemini-3") as Hspec.
    destruct (includes (default_modelId modelId) "gemini-3"); split.
    + reflexivity.
    + intros Hno. exfalso. apply Hno. now apply Hspec.
    + intros Hyes. apply Hspec in Hyes. discriminate.
    + reflexivity.
Qed.

(** A call of the default model is a call without thinking. *)
Example generateText_default_model :
  requests (trace offline (generateText "Say hello" None None)) =
  [({| apiKey := "DUMMY_KEY_FOR_DEMO" |},
    {| model := "gemini-3-flash-preview";
       contents := PromptContents "Say hello";
       config := Some {| systemInstruction := None;
                         thinkingConfig := Some {| thinkingBudget := 0 |};
                         imageConfig := None |} |})].
Proof. reflexivity. Qed.

(** ** One attempt per call *)

Lemma run_generateImage_rejected (P : platform) (prompt : string) (e : exn) :
  models_generateContent P (client_of P) (image_request prompt) = Rejected e ->
  run P (generateImage prompt) =
  ((key_warning P
    ++ [Requested (client_of P) (image_request prompt);
        Logged "Gemini GenerateImage Error:" e])%list,
   Rejected e).
Proof.
  intros Hreply. unfold generateImage. run_steps. rewrite Hreply. run_steps.
  same_trace.
Qed.

Lemma requests_generateImage (P : platform) (prompt : string) :
  requests (trace P (generateImage prompt)) =
  [(client_of P, image_request prompt)].
Proof.
  unfold trace.
  destruct (models_generateContent P (client_of P) (image_request prompt))
    as [response | e] eqn:Hreply.
  - rewrite (run_generateImage_answered _ _ Hreply).
    pose proof (run_first_inline_image P (first_candidate_parts response)) as Hpure.
    destruct (run P (first_inline_image (first_candidate_parts response)))
      as [t [uri | e]]; simpl in Hpure; subst t; cbn [and_then or_handle fst];
      rewrite ?requests_app, requests_key_warning; reflexivity.
  - rewrite (@run_generateImage_rejected P prompt e Hreply). cbn [fst].
    now rewrite requests_app, requests_key_warning.
Qed.

(** Whatever the service answers, a text call, an image call and a
    streaming call each send exactly one request, and a vision call sends
    one request when the file could be read and none when it could not:
    no call is ever attempted twice. *)
Theorem one_request_per_call (P : platform) :
  (forall prompt modelId sys,
     requests (trace P (generateText prompt modelId sys)) =
     [(client_of P, text_request prompt (default_modelId modelId) sys)])
  /\ (forall prompt,
        requests (trace P (generateImage prompt)) =
        [(client_of P, image_request prompt)])
  /\ (forall prompt modelId sys,
        requests (trace P (streamText prompt modelId sys)) =
        [(client_of P, stream_request prompt (default_modelId modelId) sys)])
  /\ (forall imageFile prompt,
        requests (trace P (analyzeImage imageFile prompt)) =
        match reader_readAsDataURL P imageFile with
        | Fulfilled result =>
            [(client_of P,
              vision_request imageFile (strip_data_url_prefix result) prompt)]
        | Rejected _ => []
        end).
Proof.
  split; [| split; [| split]].
  - intros prompt modelId sys. unfold trace. rewrite run_generateText.
    destruct (models_generateContent P (client_of P) _); cbn [fst];
      now rewrite requests_app, requests_key_warning.
  - apply requests_generateImage.
  - intros prompt modelId sys. unfold trace. rewrite run_streamText.
    destruct (models_generateContentStream P (client_of P) _) as [s | e]; cbn [fst];
      rewrite requests_app, requests_key_warning; cbn [app requests];
      [rewrite requests_app, requests_Yielded; destruct (failure_of s) |];
      reflexivity.
  - intros imageFile prompt. unfold trace. rewrite run_analyzeImage.
    destruct (reader_readAsDataURL P imageFile) as [result | e]; cbv zeta.
    + destruct (models_generateContent P (client_of P) _); cbn [fst];
        now rewrite requests_app, requests_key_warning.
    + cbn [fst]. now rewrite requests_app, requests_key_warning.
Qed.

(** ** [generateImage], further *)

(** When the transport or the service fails an image call, the call
    rejects with that very error, after writing it to the console once. *)
Theorem generateImage_failure (P : platform) (prompt : string) (e : exn) :
  models_generateContent P (client_of P) (image_request prompt) = Rejected e ->
  outcome P (generateImage prompt) = Rejected e
  /\ trace P (generateImage prompt) =
     (key_warning P
      ++ [Requested (client_of P) (image_request prompt);
          Logged "Gemini GenerateImage Error:" e])%list.
Proof.
  intros Hreply. unfold outcome, trace.
  rewrite (@run_generateImage_rejected P prompt e Hreply). split; reflexivity.
Qed.

Lemma generateImage_failure_witness :
  outcome offline (generateImage "a cat") = Rejected FETCH_FAILED
  /\ trace offline (generateImage "a cat") =
     (key_warning offline
      ++ [Requested (client_of offline) (image_request "a cat");
          Logged "Gemini GenerateImage Error:" FETCH_FAILED])%list.
Proof.
  apply (@generateImage_failure offline "a cat" FETCH_FAILED). reflexivity.
Defined.

(** The image call looks at the first candidate only.  A response without
    candidates, with an empty list of them, or whose first candidate has no
    content, no parts or no inline part, makes the call reject with
    ["No image data returned"], whatever the other candidates hold. *)
Theorem generateImage_first_candidate_only (P : platform) (prompt : string)
    (response : GenerateContentResponse) :
  models_generateContent P (client_of P) (image_request prompt) = Fulfilled response ->
  candidates response = None
  \/ candidates response = Some []
  \/ (exists (first : Candidate) (others : list Candidate),
        candidates response = Some (first :: others)
        /\ (content first = None
            \/ content first = Some {| parts := None |}
            \/ exists ps, content first = Some {| parts := Some ps |}
                 /\ Forall (fun part => inlineData part = None) ps)) ->
  outcome P (generateImage prompt) = Rejected (Error "No image data returned").
Proof.
  intros Hreply Hshape.
  assert (Hnone : Forall (fun part => inlineData part = None)
                    (first_candidate_parts response)).
  { unfold first_candidate_parts.
    destruct Hshape as [H | [H | (c & others & H & [Hc | [Hc | (ps & Hc & Hps)]])]];
      rewrite H; try rewrite Hc; cbn [parts]; auto. }
  unfold outcome. rewrite (run_generateImage_answered _ _ Hreply).
  rewrite (first_inline_image_none Hnone). run_steps. reflexivity.
Qed.

Lemma generateImage_first_candidate_only_witness :
  outcome (answering None two_candidates StreamEnd) (generateImage "a cat")
  = Rejected (Error "No image data returned").
Proof.
  apply (@generateImage_first_candidate_only
           (answering None two_candidates StreamEnd) "a cat" two_candidates).
  - reflexivity.
  - right. right.
    exists {| content := Some {| parts := Some [caption_part "a cat"] |} |},
      [ {| content := Some {| parts := Some [image_part "image/png" PIXEL] |} |} ].
    split; [reflexivity |]. right. right.
    exists [caption_part "a cat"]. split; [reflexivity | repeat constructor].
Defined.

(** ** [streamText], further *)

(** On every platform the generator completes normally, and every
    fragment it yields, the sentinel included, is a non-empty string. *)
Theorem streamText_never_rejects (P : platform) (prompt : string)
    (modelId sys : option string) :
  outcome P (streamText prompt modelId sys) = Fulfilled tt
  /\ Forall (fun fragment => fragment <> "")
       (fragments (trace P (streamText prompt modelId sys))).
Proof.
  unfold outcome, trace. rewrite run_streamText.
  destruct (models_generateContentStream P (client_of P) _) as [s | e]; cbn [fst snd];
    (split; [reflexivity |]);
    rewrite fragments_app, fragments_key_warning; cbn [app fragments].
  - rewrite fragments_app, fragments_Yielded. apply Forall_app. split.
    + apply texts_nonempty.
    + destruct (failure_of s); repeat constructor. discriminate.
  - repeat constructor. discriminate.
Qed.

(** ** [analyzeImage], further *)

(** On every platform the vision call resolves, and with a string that is
    not empty. *)
Theorem analyzeImage_never_rejects (P : platform) (imageFile : File)
    (prompt : string) :
  exists s : string,
    outcome P (analyzeImage imageFile prompt) = Fulfilled s /\ s <> "".
Proof.
  unfold outcome. rewrite run_analyzeImage.
  destruct (reader_readAsDataURL P imageFile) as [result | e]; cbv zeta.
  - destruct (models_generateContent P (client_of P) _) as [response | e];
      cbn [snd]; eexists; (split; [reflexivity |]).
    + apply js_or_nonempty. discriminate.
    + discriminate.
  - cbn [snd]. eexists. split; [reflexivity | discriminate].
Qed.

(** When the file cannot be read the service is never asked: the trace is
    the key warning, if any, the read and the console line, and the call
    resolves with the failure text. *)
Theorem analyzeImage_unreadable_file (P : platform) (imageFile : File)
    (prompt : string) (e : exn) :
  reader_readAsDataURL P imageFile = Rejected e ->
  run P (analyzeImage imageFile prompt) =
  ((key_warning P ++ [FileRead imageFile; Logged "Gemini Vision Error:" e])%list,
   Fulfilled "Failed to analyze image.")
  /\ requests (trace P (analyzeImage imageFile prompt)) = [].
Proof.
  intros Hread. unfold trace. rewrite run_analyzeImage, Hread. cbn [fst].
  split; [reflexivity |]. now rewrite requests_app, requests_key_warning.
Qed.

Lemma analyzeImage_unreadable_file_witness :
  run offline (analyzeImage pixel_file "Describe") =
  ((key_warning offline
    ++ [FileRead pixel_file; Logged "Gemini Vision Error:" FETCH_FAILED])%list,
   Fulfilled "Failed to analyze image.")
  /\ requests (trace offline (analyzeImage pixel_file "Describe")) = [].
Proof.
  apply (@analyzeImage_unreadable_file offline pixel_file "Describe" FETCH_FAILED).
  reflexivity.
Defined.

(** The vision call does not check what the reader returned.  A result
    without a comma has no second piece, and the request goes out all the
    same, with the declared type of the file and no data. *)
Theorem analyzeImage_result_without_comma (P : platform) (imageFile : File)
    (prompt result : string) :
  reader_readAsDataURL P imageFile = Fulfilled result ->
  comma_free result = true ->
  requests (trace P (analyzeImage imageFile prompt)) =
  [(client_of P,
    {| model := "gemini-2.5-flash-image";
       contents := PartsContents
                     [InlineDataPart (file_type imageFile) None; TextPart prompt];
       config := None |})].
Proof.
  intros Hread Hfree. unfold trace. rewrite run_analyzeImage, Hread. cbv zeta.
  unfold strip_data_url_prefix. rewrite (split_comma_free _ Hfree). cbn [nth_error].
  destruct (models_generateContent P (client_of P) _); cbn [fst];
    now rewrite requests_app, requests_key_warning.
Qed.

Lemma analyzeImage_result_without_comma_witness :
  requests (trace bare_reader (analyzeImage pixel_file "Describe")) =
  [(client_of bare_reader,
    {| model := "gemini-2.5-flash-image";
       contents := PartsContents
                     [InlineDataPart (file_type pixel_file) None; TextPart "Describe"];
       config := None |})].
Proof.
  apply (@analyzeImage_result_without_comma bare_reader pixel_file "Describe" "data:");
    reflexivity.
Defined.

(** A vision call that the service answers with a text returns it. *)
Lemma analyzeImage_text_witness :
  outcome (answering None (text_chunk (Some "A white pixel.")) StreamEnd)
    (analyzeImage pixel_file "Describe") = Fulfilled "A white pixel.".
Proof.
  apply (@analyzeImage_text (answering None (text_chunk (Some "A white pixel.")) StreamEnd)
           pixel_file "Describe" (data_uri "image/png" PIXEL) "A white pixel."
           (text_chunk (Some "A white pixel."))); try reflexivity.
  discriminate.
Defined.

(** * Properties of the AI context *)

(** ** [modelManager] *)

Lemma run_infer (P : platform) (modelId : string) (payload : inference_payload) :
  let req := text_request (payload_prompt payload) modelId None in
  run P (infer modelId payload) =
  match models_generateContent P (client_of P) req with
  | Fulfilled response =>
      ((key_warning P ++ [Requested (client_of P) req])%list,
       Fulfilled {| output := js_or (text response) "No response generated." |})
  | Rejected e =>
      ((key_warning P ++
        [Requested (client_of P) req; Logged "Gemini GenerateText Error:" e])%list,
       Rejected e)
  end.
Proof.
  intros req. unfold infer. run_steps. rewrite run_generateText.
  cbn [default_modelId]. fold req.
  destruct (models_generateContent P (client_of P) req); run_steps; same_trace.
Qed.

(** An inference asks the service once, for the model it was given and
    with the prompt of its payload, be the payload a string or an object.
    It rejects with the error of the service when the service fails, and
    its output is otherwise never empty: the text of the service, or the
    fallback of the text call. *)
Theorem infer_outcome (P : platform) (modelId : string) (payload : inference_payload) :
  requests (trace P (infer modelId payload)) =
    [(client_of P, text_request (payload_prompt payload) modelId None)]
  /\ match models_generateContent P (client_of P)
             (text_request (payload_prompt payload) modelId None) with
     | Rejected e => outcome P (infer modelId payload) = Rejected e
     | Fulfilled response =>
         exists t : string,
           outcome P (infer modelId payload) = Fulfilled {| output := t |}
           /\ t <> ""
           /\ (forall generated, text response = Some generated ->
               generated <> "" -> t = generated)
           /\ (text response = None \/ text response = Some "" ->
               t = "No response generated.")
     end.
Proof.
  unfold trace, outcome. rewrite run_infer. cbv zeta.
  destruct (models_generateContent P (client_of P) _) as [response | e]; cbn [fst snd];
    rewrite requests_app, requests_key_warning; (split; [reflexivity |]).
  - exists (js_or (text response) "No response generated."). repeat split.
    + apply js_or_nonempty. discriminate.
    + intros generated Ht Hne. rewrite Ht. now apply js_or_text.
    + intros Hempty. apply js_or_fallback. now apply truthy_false.
  - reflexivity.
Qed.

(** The choice of a model does not depend on the capabilities asked for. *)
Lemma selectBestModel_constant (capabilities : list string) :
  selectBestModel capabilities = "gemini-3-flash-preview".
Proof.
  unfold selectBestModel.
  destruct (array_includes capabilities "sentiment_analysis");
    [| destruct (array_includes capabilities "generation")]; reflexivity.
Qed.

(** An inference with the model that [selectBestModel] picks is, for every
    list of capabilities, a request to [gemini-3-flash-preview] with the
    thinking budget set to zero. *)
Theorem infer_best_model (P : platform) (capabilities : list string)
    (payload : inference_payload) :
  requests (trace P (infer (selectBestModel capabilities) payload)) =
  [(client_of P,
    {| model := "gemini-3-flash-preview";
       contents := PromptContents (payload_prompt payload);
       config := Some {| systemInstruction := None;
                         thinkingConfig := Some {| thinkingBudget := 0 |};
                         imageConfig := None |} |})].
Proof.
  rewrite selectBestModel_constant. unfold trace. rewrite run_infer. cbv zeta.
  destruct (models_generateContent P (client_of P) _); cbn [fst];
    now rewrite requests_app, requests_key_warning.
Qed.

(** Relaying every value of a generator is running the generator. *)
Lemma run_for_await_of_relay (P : platform) (generator : js unit) :
  run P (for_await_of generator (fun v => perform (YieldValue v))) = run P generator.
Proof.
  induction generator as [[] | e | X op k IH]; try reflexivity.
  destruct op; cbn [for_await_of yield_of run]; try (now rewrite IH).
  run_steps. rewrite IH. cbn [answer].
  destruct (run P (k tt)) as [t r]. reflexivity.
Qed.

(** The streaming inference relays the generator of the service as it is:
    the same effects and the same values in the same order, the sentinel of
    a failed stream among them, and the same normal end. *)
Theorem streamInfer_relays (P : platform) (modelId : string)
    (payload : inference_payload) :
  run P (streamInfer modelId payload) =
    run P (streamText (payload_prompt payload) (Some modelId) None)
  /\ outcome P (streamInfer modelId payload) = Fulfilled tt.
Proof.
  unfold streamInfer. cbv zeta.
  assert (Hrun : run P (for_await_of
                          (streamText (payload_prompt payload) (Some modelId) None)
                          (fun text => perform (YieldValue text)))
                 = run P (streamText (payload_prompt payload) (Some modelId) None))
    by apply run_for_await_of_relay.
  split; [exact Hrun |]. unfold outcome. rewrite Hrun, run_streamText.
  destruct (models_generateContentStream P (client_of P) _); reflexivity.
Qed.

Example streamInfer_broken :
  fragments (trace (answering None (text_chunk None) broken_stream)
               (streamInfer "gemini-3-pro-preview" (PayloadObject "Say hello"))) =
    ["Hel"; "lo"; " [Error generating stream]"].
Proof. reflexivity. Qed.

(** ** [generativeContentStudio] *)

Lemma run_designUIComponent (P : platform) (prompt theme : string) :
  let req := text_request (DESIGN_PROMPT prompt theme) "gemini-3-flash-preview" None in
  run P (designUIComponent prompt theme) =
  match models_generateContent P (client_of P) req with
  | Fulfilled response =>
      ((key_warning P ++ [Requested (client_of P) req])%list,
       Fulfilled {| code := js_or (text response) "No response generated.";
                    previewUrl := "http://localhost:3000/preview/ui_component_x" |})
  | Rejected e =>
      ((key_warning P ++
        [Requested (client_of P) req; Logged "Gemini GenerateText Error:" e])%list,
       Rejected e)
  end.
Proof.
  intros req. unfold designUIComponent. run_steps. rewrite run_generateText.
  cbn [default_modelId]. fold (DESIGN_PROMPT prompt theme). fold req.
  destruct (models_generateContent P (client_of P) req); run_steps; same_trace.
Qed.

(** The studio has no error handling of its own and does not look at what
    it generated.  When the service answers a design request without text,
    the component it returns has the fallback sentence of the text call as
    its code. *)
Theorem designUIComponent_without_text (P : platform) (prompt theme : string)
    (response : GenerateContentResponse) :
  models_generateContent P (client_of P)
    (text_request
       ("Design a React component using Tailwind CSS for: " ++ prompt
        ++ ". Theme: " ++ theme ++ ". Return only the TSX code.")
       "gemini-3-flash-preview" None) = Fulfilled response ->
  text response = None \/ text response = Some "" ->
  outcome P (designUIComponent prompt theme) =
  Fulfilled {| code := "No response generated.";
               previewUrl := "http://localhost:3000/preview/ui_component_x" |}.
Proof.
  intros Hreply Hempty. unfold outcome. rewrite run_designUIComponent. cbv zeta.
  unfold DESIGN_PROMPT. rewrite Hreply. cbn [snd].
  rewrite js_or_fallback by now apply truthy_false. reflexivity.
Qed.

Lemma designUIComponent_without_text_witness :
  outcome (answering None (text_chunk None) StreamEnd)
    (designUIComponent "a login form" "dark") =
  Fulfilled {| code := "No response generated.";
               previewUrl := "http://localhost:3000/preview/ui_component_x" |}.
Proof.
  apply (@designUIComponent_without_text (answering None (text_chunk None) StreamEnd)
           "a login form" "dark" (text_chunk None)).
  - reflexivity.
  - left. reflexivity.
Defined.

(** When the service fails, each function of the studio rejects with the
    error of the service, unchanged. *)
Theorem studio_failure (P : platform) (e : exn) :
  (forall ai req, models_generateContent P ai req = Rejected e) ->
  (forall prompt, outcome P (studio_generateImage prompt) = Rejected e)
  /\ (forall prompt lang, outcome P (generateCode prompt lang) = Rejected e)
  /\ (forall prompt theme, outcome P (designUIComponent prompt theme) = Rejected e)
  /\ (forall prompt, outcome P (studio_generateText prompt) = Rejected e).
Proof.
  intros Hdown. unfold outcome. repeat split.
  - intros prompt. unfold studio_generateImage.
    now rewrite (@run_generateImage_rejected P prompt e (Hdown _ _)).
  - intros prompt lang. unfold generateCode. now rewrite run_generateText, Hdown.
  - intros prompt theme. rewrite run_designUIComponent. cbv zeta. now rewrite Hdown.
  - intros prompt. unfold studio_generateText. now rewrite run_generateText, Hdown.
Qed.

Lemma studio_failure_witness :
  (forall prompt, outcome offline (studio_generateImage prompt) = Rejected FETCH_FAILED)
  /\ (forall prompt lang, outcome offline (generateCode prompt lang) = Rejected FETCH_FAILED)
  /\ (forall prompt theme,
        outcome offline (designUIComponent prompt theme) = Rejected FETCH_FAILED)
  /\ (forall prompt, outcome offline (studio_generateText prompt) = Rejected FETCH_FAILED).
Proof.
  apply (@studio_failure offline FETCH_FAILED). reflexivity.
Defined.

(** ** [universalInterfaceCoordinator] *)

Lemma run_processInput_vision (P : platform) (uid : string)
    (payload : input_payload) (blob : File) :
  imageBlob payload = Some blob ->
  run P (processInput uid payload "vision") =
  and_then (run P (analyzeImage blob IMAGE_PROMPT))
    (fun analysis =>
       ([], Fulfilled
              {| payload_text :=
                   match payload_text payload with
                   | Some t => Some t
                   | None => Some ("[Image Analysis]: " ++ analysis)
                   end;
                 imageBlob := imageBlob payload;
                 payload_rest := payload_rest payload |})).
Proof.
  intros Hblob. unfold processInput. cbn [String.eqb Ascii.eqb Bool.eqb].
  rewrite Hblob. run_steps. reflexivity.
Qed.

(** A vision input with an image never makes [processInput] reject.  For a
    payload without a text of its own, the text of the result is the
    answer of the vision call behind ["[Image Analysis]: "]; when reading
    the file or the service failed, that is the failure text, so that a
    failure reads as an analysis. *)
Theorem processInput_vision (P : platform) (uid : string)
    (payload : input_payload) (blob : File) :
  imageBlob payload = Some blob ->
  payload_text payload = None ->
  exists analysis : string,
    outcome P (analyzeImage blob IMAGE_PROMPT) = Fulfilled analysis
    /\ outcome P (processInput uid payload "vision") =
       Fulfilled {| payload_text := Some ("[Image Analysis]: " ++ analysis);
                    imageBlob := Some blob;
                    payload_rest := payload_rest payload |}
    /\ (forall e,
          reader_readAsDataURL P blob = Rejected e
          \/ (exists result,
                reader_readAsDataURL P blob = Fulfilled result
                /\ models_generateContent P (client_of P)
                     (vision_request blob (strip_data_url_prefix result) IMAGE_PROMPT)
                   = Rejected e) ->
          analysis = "Failed to analyze image.").
Proof.
  intros Hblob Htext. unfold outcome.
  rewrite (run_processInput_vision P uid payload Hblob), Htext, Hblob.
  rewrite run_analyzeImage.
  destruct (reader_readAsDataURL P blob) as [result | e]; cbv zeta.
  - destruct (models_generateContent P (client_of P) _) as [response | e] eqn:Hreply;
      cbn [and_then snd]; eexists; (split; [reflexivity |]);
      (split; [reflexivity |]).
    + intros e [Hread | (result' & [= <-] & Hfail)]; [discriminate | congruence].
    + reflexivity.
  - cbn [and_then snd]. eexists. repeat split.
Qed.

Lemma processInput_vision_witness :
  exists analysis : string,
    outcome offline (analyzeImage pixel_file IMAGE_PROMPT) = Fulfilled analysis
    /\ outcome offline
         (processInput "user_alpha_01"
            {| payload_text := None; imageBlob := Some pixel_file;
               payload_rest := [("sessionId", "session_1")] |} "vision") =
       Fulfilled {| payload_text := Some ("[Image Analysis]: " ++ analysis);
                    imageBlob := Some pixel_file;
                    payload_rest := [("sessionId", "session_1")] |}
    /\ (forall e,
          reader_readAsDataURL offline pixel_file = Rejected e
          \/ (exists result,
                reader_readAsDataURL offline pixel_file = Fulfilled result
                /\ models_generateContent offline (client_of offline)
                     (vision_request pixel_file (strip_data_url_prefix result)
                        IMAGE_PROMPT)
                   = Rejected e) ->
          analysis = "Failed to analyze image.").
Proof.
  apply (@processInput_vision offline "user_alpha_01"
           {| payload_text := None; imageBlob := Some pixel_file;
              payload_rest := [("sessionId", "session_1")] |} pixel_file);
    reflexivity.
Defined.

(** A text on the payload of a vision input survives the spread: the
    vision call is made all the same, and its answer is dropped. *)
Theorem processInput_vision_text_wins (P : platform) (uid t : string)
    (payload : input_payload) (blob : File) :
  imageBlob payload = Some blob ->
  payload_text payload = Some t ->
  outcome P (processInput uid payload "vision") = Fulfilled payload
  /\ trace P (processInput uid payload "vision") =
     trace P (analyzeImage blob IMAGE_PROMPT).
Proof.
  intros Hblob Htext. unfold outcome, trace.
  rewrite (run_processInput_vision P uid payload Hblob), Htext.
  destruct (analyzeImage_resolves P blob IMAGE_PROMPT) as (s & Hs).
  unfold outcome in Hs.
  destruct (run P (analyzeImage blob IMAGE_PROMPT)) as [tr r]. cbn [snd] in Hs.
  subst r. cbn [and_then fst snd]. rewrite app_nil_r. split; [| reflexivity].
  destruct payload. cbn in *. now subst.
Qed.

Lemma processInput_vision_text_wins_witness :
  outcome offline
    (processInput "user_alpha_01"
       {| payload_text := Some "look at this"; imageBlob := Some pixel_file;
          payload_rest := [] |} "vision") =
  Fulfilled {| payload_text := Some "look at this"; imageBlob := Some pixel_file;
               payload_rest := [] |}
  /\ trace offline
       (processInput "user_alpha_01"
          {| payload_text := Some "look at this"; imageBlob := Some pixel_file;
             payload_rest := [] |} "vision") =
     trace offline (analyzeImage pixel_file IMAGE_PROMPT).
Proof.
  apply (@processInput_vision_text_wins offline "user_alpha_01" "look at this"
           {| payload_text := Some "look at this"; imageBlob := Some pixel_file;
              payload_rest := [] |} pixel_file); reflexivity.
Defined.

(** Outside a vision input with an image, [processInput] touches nothing:
    no file is read, no request is sent, nothing is printed, and the call
    resolves.  A text input comes back as it was given. *)
Theorem processInput_without_image (P : platform) (uid : string)
    (payload : input_payload) (modality : string) :
  modality <> "vision" \/ imageBlob payload = None ->
  trace P (processInput uid payload modality) = []
  /\ (exists processed, outcome P (processInput uid payload modality) = Fulfilled processed)
  /\ (modality = "text" ->
      outcome P (processInput uid payload modality) = Fulfilled payload).
Proof.
  intros Hplain. unfold trace, outcome, processInput.
  assert (Hnone : (if modality =? "vision" then imageBlob payload else None) = None).
  { destruct (String.eqb_spec modality "vision") as [-> | _]; [| reflexivity].
    destruct Hplain as [H | H]; [contradiction | exact H]. }
  rewrite Hnone.
  destruct (String.eqb_spec modality "text") as [-> | Hnot_text].
  - repeat split; try reflexivity. eexists; reflexivity.
  - destruct (modality =? "speech");
      repeat split; try reflexivity; try contradiction; eexists; reflexivity.
Qed.

Lemma processInput_without_image_witness :
  trace offline
    (processInput "user_alpha_01"
       {| payload_text := Some "hello"; imageBlob := None; payload_rest := [] |}
       "text") = []
  /\ (exists processed,
        outcome offline
          (processInput "user_alpha_01"
             {| payload_text := Some "hello"; imageBlob := None; payload_rest := [] |}
             "text") = Fulfilled processed)
  /\ ("text" = "text" ->
      outcome offline
        (processInput "user_alpha_01"
           {| payload_text := Some "hello"; imageBlob := None; payload_rest := [] |}
           "text") =
      Fulfilled {| payload_text := Some "hello"; imageBlob := None; payload_rest := [] |}).
Proof.
  apply (@processInput_without_image offline "user_alpha_01"
           {| payload_text := Some "hello"; imageBlob := None; payload_rest := [] |}
           "text").
  left. discriminate.
Defined.

(** A speech input is answered with a mock transcription: the text of the
    payload, or ["Hello system."] when it has none or an empty one. *)
Example processInput_speech :
  outcome offline
    (processInput "user_alpha_01"
       {| payload_text := Some ""; imageBlob := Some pixel_file; payload_rest := [] |}
       "speech") =
  Fulfilled {| payload_text := Some "Audio transcribed: Hello system.";
               imageBlob := None; payload_rest := [] |}.
Proof. reflexivity. Qed.

Lemma run_generateOutput_vision (P : platform) (uid : string) (c : output_content) :
  run P (generateOutput uid c "vision") =
  and_then (run P (generateImage (js_or (sourcePrompt c) "Abstract visualization")))
    (fun url => ([], Fulfilled (OutputImage url))).
Proof. unfold generateOutput. cbn [String.eqb Ascii.eqb Bool.eqb]. run_steps. reflexivity. Qed.

(** For a vision output the coordinator asks for an image of the source
    prompt, or of ["Abstract visualization"] when the content has no source
    prompt or an empty one, and it catches nothing: it rejects whenever the
    image call does, with the same error. *)
Theorem generateOutput_vision (P : platform) (uid : string) (c : output_content) :
  requests (trace P (generateOutput uid c "vision")) =
    [(client_of P,
      image_request
        match sourcePrompt c with
        | Some "" | None => "Abstract visualization"
        | Some prompt => prompt
        end)]
  /\ (forall e,
        outcome P (generateImage
                     match sourcePrompt c with
                     | Some "" | None => "Abstract visualization"
                     | Some prompt => prompt
                     end) = Rejected e ->
        outcome P (generateOutput uid c "vision") = Rejected e).
Proof.
  assert (Hprompt : js_or (sourcePrompt c) "Abstract visualization" =
                    match sourcePrompt c with
                    | Some "" | None => "Abstract visualization"
                    | Some prompt => prompt
                    end).
  { destruct (sourcePrompt c) as [[| a s] |]; reflexivity. }
  rewrite <- Hprompt. unfold trace, outcome. rewrite run_generateOutput_vision.
  pose proof (requests_generateImage P (js_or (sourcePrompt c) "Abstract visualization"))
    as Hreq.
  unfold trace in Hreq.
  destruct (run P (generateImage (js_or (sourcePrompt c) "Abstract visualization")))
    as [t [url | e']]; cbn [and_then fst snd] in *.
  - rewrite app_nil_r. split; [exact Hreq | intros e H; discriminate H].
  - split; [exact Hreq | intros e H; injection H as ->; reflexivity].
Qed.

Example generateOutput_text :
  run offline (generateOutput "user_alpha_01"
                 {| content_text := Some "Hello."; sourcePrompt := Some "hi" |} "text")
  = ([], Fulfilled (OutputText "Hello.")).
Proof. reflexivity. Qed.

(** ** The agent registry *)

(** [registerAgent] replaces the first agent with the identifier of the
    new one, or appends the new one. *)
Lemma registerAgent_nil (a : AIAgent) : registerAgent a [] = [a].
Proof. reflexivity. Qed.

Lemma findIndex_lower (A : Type) (p : A -> bool) (xs : list A) :
  (-1 <= findIndex p xs)%Z.
Proof.
  induction xs as [| x rest IH]; simpl; [lia |].
  destruct (p x); [lia |]. destruct (Z.ltb_spec (findIndex p rest) 0); lia.
Qed.

Lemma registerAgent_cons (a x : AIAgent) (rest : list AIAgent) :
  registerAgent a (x :: rest) =
  if agent_id x =? agent_id a then a :: rest else x :: registerAgent a rest.
Proof.
  unfold registerAgent. cbn [findIndex].
  destruct (agent_id x =? agent_id a); [reflexivity |].
  set (i := findIndex (fun other => agent_id other =? agent_id a) rest).
  pose proof (findIndex_lower (fun other => agent_id other =? agent_id a) rest) as Hlow.
  fold i in Hlow. cbv zeta.
  destruct (Z.ltb_spec i 0) as [Hneg | Hpos].
  - assert (i = (-1)%Z) as -> by lia. reflexivity.
  - destruct (Z.leb_spec 0 (i + 1)) as [_ | Habs]; [| lia].
    destruct (Z.leb_spec 0 i) as [_ | Habs]; [| lia].
    replace (Z.to_nat (i + 1)) with (S (Z.to_nat i)) by lia. reflexivity.
Qed.

(** After a registration the registry answers the identifier of the agent
    with that agent, and every other identifier as before. *)
Theorem registerAgent_getAgent (a : AIAgent) (prev : list AIAgent) :
  getAgent (registerAgent a prev) (agent_id a) = Some a
  /\ forall id, id <> agent_id a ->
       getAgent (registerAgent a prev) id = getAgent prev id.
Proof.
  unfold getAgent. split.
  - induction prev as [| x rest IH].
    + simpl. now rewrite String.eqb_refl.
    + rewrite registerAgent_cons.
      destruct (String.eqb_spec (agent_id x) (agent_id a)) as [Heq | Hne]; simpl.
      * now rewrite String.eqb_refl.
      * destruct (String.eqb_spec (agent_id x) (agent_id a)); [contradiction | exact IH].
  - intros id Hid. induction prev as [| x rest IH].
    + simpl. destruct (String.eqb_spec (agent_id a) id); [congruence | reflexivity].
    + rewrite registerAgent_cons.
      destruct (String.eqb_spec (agent_id x) (agent_id a)) as [Heq | Hne]; simpl.
      * destruct (String.eqb_spec (agent_id a) id); [congruence |].
        destruct (String.eqb_spec (agent_id x) id); [congruence | reflexivity].
      * now rewrite IH.
Qed.

Lemma registerAgent_ids_cases (a : AIAgent) (prev : list AIAgent) :
  (In (agent_id a) (map agent_id prev) ->
   map agent_id (registerAgent a prev) = map agent_id prev)
  /\ (~ In (agent_id a) (map agent_id prev) ->
      map agent_id (registerAgent a prev) = (map agent_id prev ++ [agent_id a])%list).
Proof.
  induction prev as [| x rest [IHin IHout]].
  - split; [intros [] | reflexivity].
  - rewrite registerAgent_cons.
    destruct (String.eqb_spec (agent_id x) (agent_id a)) as [Heq | Hne]; simpl.
    + split; [now rewrite Heq | intros Hout; exfalso; apply Hout; now left].
    + split.
      * intros [Hhead | Htail]; [contradiction | now rewrite IHin].
      * intros Hout. rewrite IHout; [reflexivity | intros Hin; apply Hout; now right].
Qed.

(** A registration keeps the identifiers of the registry in their order:
    it changes none of them when the identifier is already there, and adds
    the new one at the end otherwise.  Identifiers that were distinct stay
    distinct. *)
Theorem registerAgent_identifiers (a : AIAgent) (prev : list AIAgent) :
  (In (agent_id a) (map agent_id prev) ->
   map agent_id (registerAgent a prev) = map agent_id prev)
  /\ (~ In (agent_id a) (map agent_id prev) ->
      map agent_id (registerAgent a prev) = (map agent_id prev ++ [agent_id a])%list)
  /\ (NoDup (map agent_id prev) -> NoDup (map agent_id (registerAgent a prev))).
Proof.
  destruct (registerAgent_ids_cases a prev) as [Hin Hout].
  split; [exact Hin |]. split; [exact Hout |].
  intros Hnodup.
  destruct (in_dec string_dec (agent_id a) (map agent_id prev)) as [H | H].
  - now rewrite (Hin H).
  - rewrite (Hout H). apply NoDup_app; repeat split; auto.
    + repeat constructor. intros [].
    + intros id Hid [<- | []]. contradiction.
Qed.

(** Registering the same agent twice is registering it once. *)
Theorem registerAgent_idempotent (a : AIAgent) (prev : list AIAgent) :
  registerAgent a (registerAgent a prev) = registerAgent a prev.
Proof.
  induction prev as [| x rest IH].
  - rewrite registerAgent_nil, registerAgent_cons. now rewrite String.eqb_refl.
  - rewrite (registerAgent_cons a x rest).
    destruct (String.eqb_spec (agent_id x) (agent_id a)) as [Heq | Hne].
    + rewrite registerAgent_cons. now rewrite String.eqb_refl.
    + rewrite registerAgent_cons.
      destruct (String.eqb_spec (agent_id x) (agent_id a)); [contradiction |].
      now rewrite IH.
Qed.

(** The reboot of the chat registers the agent it had looked up, with a
    new status: the entry is replaced in place. *)
Example registerAgent_reboot :
  registerAgent (agent "agent_data_01" "DataAnalyst-Alpha" Idle)
    [agent "agent_data_01" "DataAnalyst-Alpha" Offline;
     agent "agent_design_02" "CreativeSynth-Beta" Idle] =
  [agent "agent_data_01" "DataAnalyst-Alpha" Idle;
   agent "agent_design_02" "CreativeSynth-Beta" Idle].
Proof. reflexivity. Qed.

(** ** The subscribers *)

Lemma count_occ_remove_other (cb other : callback) (l : list callback) :
  other <> cb ->
  count_occ Nat.eq_dec (remove Nat.eq_dec cb l) other = count_occ Nat.eq_dec l other.
Proof.
  intros Hother. induction l as [| x rest IH]; [reflexivity |]. simpl.
  destruct (Nat.eq_dec cb x) as [<- | Hne].
  - destruct (Nat.eq_dec cb other); [congruence | exact IH].
  - simpl. destruct (Nat.eq_dec x other); now rewrite IH.
Qed.

(** Unsubscribing removes every registration of the callback, earlier
    ones included, and keeps the others, each as many times as it was
    registered and in the order of registration: what is left is the list
    of subscribers with every occurrence of the callback taken out.  For a
    callback that was not subscribed before, subscribing and unsubscribing
    gives the list back. *)
Theorem unsubscribe_subscribe (cb : callback) (subscribers : list callback) :
  ~ In cb (unsubscribe cb (subscribe cb subscribers))
  /\ unsubscribe cb (subscribe cb subscribers) = remove Nat.eq_dec cb subscribers
  /\ (forall other, other <> cb ->
      count_occ Nat.eq_dec (unsubscribe cb (subscribe cb subscribers)) other =
      count_occ Nat.eq_dec subscribers other)
  /\ (forall before after,
      subscribers = (before ++ cb :: after)%list ->
      unsubscribe cb (subscribe cb subscribers) =
      (remove Nat.eq_dec cb before ++ remove Nat.eq_dec cb after)%list)
  /\ unsubscribe cb (subscribe cb subscribers) = unsubscribe cb subscribers
  /\ (~ In cb subscribers -> unsubscribe cb (subscribe cb subscribers) = subscribers).
Proof.
  assert (Hremove : forall l, unsubscribe cb l = remove Nat.eq_dec cb l).
  { induction l as [| other rest IH]; [reflexivity |].
    unfold unsubscribe in *. simpl.
    destruct (Nat.eq_dec cb other) as [<- | Hne].
    - rewrite Nat.eqb_refl. exact IH.
    - destruct (Nat.eqb_spec other cb) as [-> | _]; [contradiction |].
      simpl. now rewrite IH. }
  assert (Hlast : unsubscribe cb (subscribe cb subscribers)
                  = remove Nat.eq_dec cb subscribers).
  { rewrite Hremove. unfold subscribe. rewrite remove_app. simpl.
    destruct (Nat.eq_dec cb cb) as [_ | Hne]; [apply app_nil_r | contradiction]. }
  split; [| split; [| split; [| split; [| split]]]].
  - rewrite Hlast. apply remove_In.
  - exact Hlast.
  - intros other Hother. rewrite Hlast. now apply count_occ_remove_other.
  - intros before after ->. rewrite Hlast, remove_app. simpl.
    destruct (Nat.eq_dec cb cb) as [_ | Hne]; [reflexivity | contradiction].
  - now rewrite Hlast, Hremove.
  - intros Hout. rewrite Hlast. now apply notin_remove.
Qed.

(** A callback registered twice is gone after one call of the function
    that either registration returned; the others stay as they were. *)
Example unsubscribe_twice_registered :
  unsubscribe 1 (subscribe 1 [1; 2; 3]) = [2; 3]
  /\ unsubscribe 1 (subscribe 1 [2; 1; 3; 2]) = [2; 3; 2].
Proof. split; reflexivity. Qed.
